(** * AI Council: a shallow embedding of the browser client and of the
    vote-aggregation and persona-binding rules.

    The client lives in three scripts, [static/js/app.js],
    [static/js/session.js] and [static/js/voting.js].  Each script is a
    set of event handlers over one shared, mutable [state] object, the
    browser's [sessionStorage], a handful of module-level variables and
    the DOM.  We embed that as explicit state passing over a [world]
    record; everything a handler does to the outside (dialogs, HTTP
    requests, event streams) is appended to a [trace] in program order.

    Layout: the definitions come first, one module per script; the
    lemmas and theorems follow. *)

From Stdlib Require Import ZArith QArith Ascii String.
From stdpp Require Import gmap strings list fin_maps.

Local Open Scope string_scope.
Local Open Scope Z_scope.

(** ** JavaScript values the handlers compute with *)

(** A JavaScript number as far as the client uses it: an integer, or
    [NaN] (what [parseInt] returns when no digits are found). *)
Inductive number : Type :=
  | NaN
  | Num (z : Z).

(** [ToBoolean] on numbers: [NaN] and [0] are falsy. *)
Definition truthy (n : number) : bool :=
  match n with
  | NaN => false
  | Num z => negb (z =? 0)
  end.

(** [a || b] on numbers. *)
Definition or_else (a b : number) : number :=
  if truthy a then a else b.

(** [Math.max] and [Math.min]: [NaN] is contagious. *)
Definition Math_max (a b : number) : number :=
  match a, b with
  | Num x, Num y => Num (Z.max x y)
  | _, _ => NaN
  end.

Definition Math_min (a b : number) : number :=
  match a, b with
  | Num x, Num y => Num (Z.min x y)
  | _, _ => NaN
  end.

(** *** [parseInt(string)] with no radix argument (ECMA-262, 19.2.5) *)

(** The white space [parseInt] strips; the strings here are ASCII. *)
Definition is_white_space (c : ascii) : bool :=
  let n := nat_of_ascii c in
  ((9 <=? n) && (n <=? 13))%nat || (n =? 32)%nat.

Fixpoint trim_start (s : string) : string :=
  match s with
  | String c rest => if is_white_space c then trim_start rest else s
  | EmptyString => s
  end.

(** The value of [c] as a digit, for radices up to 16. *)
Definition digit_value (c : ascii) : option Z :=
  let n := Z.of_nat (nat_of_ascii c) in
  if (48 <=? n) && (n <=? 57) then Some (n - 48)
  else if (97 <=? n) && (n <=? 102) then Some (n - 87)
  else if (65 <=? n) && (n <=? 70) then Some (n - 55)
  else None.

(** Reads the longest prefix of radix-[r] digits; [acc] is the value
    read so far and [seen] tells whether a digit was read at all. *)
Fixpoint read_digits (r : Z) (s : string) (acc : Z) (seen : bool) : option Z :=
  match s with
  | String c rest =>
      match digit_value c with
      | Some d =>
          if d <? r then read_digits r rest (acc * r + d) true
          else if seen then Some acc else None
      | None => if seen then Some acc else None
      end
  | EmptyString => if seen then Some acc else None
  end.

Definition strip_sign (s : string) : Z * string :=
  match s with
  | String "-" rest => (-1, rest)
  | String "+" rest => (1, rest)
  | _ => (1, s)
  end.

Definition strip_hex_prefix (s : string) : Z * string :=
  match s with
  | String "0" (String "x" rest) => (16, rest)
  | String "0" (String "X" rest) => (16, rest)
  | _ => (10, s)
  end.

Definition parseInt (s : string) : number :=
  let '(sign, s1) := strip_sign (trim_start s) in
  let '(radix, s2) := strip_hex_prefix s1 in
  match read_digits radix s2 0 false with
  | Some v => Num (sign * v)
  | None => NaN
  end.

(** [String(n)], as used when a number is written into an input's
    [value] or into a template literal.  Only the shape matters to the
    handlers that read it back with [parseInt]. *)
Fixpoint digits_of (fuel : nat) (n : Z) (acc : string) : string :=
  match fuel with
  | O => acc
  | S fuel' =>
      let d := ascii_of_nat (Z.to_nat (48 + n mod 10)) in
      if n <? 10 then String d acc
      else digits_of fuel' (n / 10) (String d acc)
  end.

Definition number_to_string (n : number) : string :=
  match n with
  | NaN => "NaN"
  | Num z =>
      if z <? 0 then "-" ++ digits_of (Z.to_nat (Z.log2 (- z)) + 1) (- z) ""
      else digits_of (Z.to_nat (Z.log2 z) + 1) z ""
  end.

(** ** Everything a handler can do to the outside world *)

(** Values that occur in request bodies. *)
Inductive jsval : Type :=
  | VNull
  | VBool (b : bool)
  | VNum (n : number)
  | VStr (s : string)
  | VRanks (m : gmap string Z)
  | VTexts (m : gmap string string).

(** The object literal passed to [api.post], field by field. *)
Definition body : Type := list (string * jsval).

Inductive effect : Type :=
  | Alert (message : string)
  | Confirm (message : string)
  | ConsoleError (message : string)
  | Fetch (method url : string) (payload : body)
  | OpenEventSource (url : string)
  | CloseEventSource (url : string).

(** The effects that reach the server. *)
Definition is_request (e : effect) : bool :=
  match e with
  | Fetch _ _ _ | OpenEventSource _ => true
  | _ => false
  end.

Definition requests (t : list effect) : list effect := filter is_request t.

(** ** The client's state *)

(** *** [app.js]: the global [state] object *)

Record persona : Type := Persona {
  persona_id : option string;
  persona_name : string
}.

Record worker : Type := Worker {
  worker_id : string;
  worker_persona : persona
}.

Record candidate : Type := Candidate {
  candidate_id : string;
  candidate_summary : string
}.

(** The configuration object the server answers with; the client reads
    [mode] and reads and writes [worker_count]. *)
Record config : Type := Config {
  config_mode : string;
  worker_count : number
}.

Record tokenStats : Type := TokenStats {
  totalTokens : Z;
  inputTokens : Z;
  outputTokens : Z;
  callCount : Z;
  workerContextLimit : Z;
  synthContextLimit : Z;
  lastWorkerContextUsed : Z;
  lastSynthContextUsed : Z
}.

(** The fields of the [state] literal, and [candidates] and
    [votingResult], which the session and voting scripts add to it.
    [None] stands for [null] or [undefined]. *)
Record state : Type := State {
  currentView : string;
  currentMode : string;
  sessionId : option string;
  sessionActive : bool;
  personas : list persona;
  workers : list worker;
  state_config : option config;
  state_tokenStats : tokenStats;
  candidates : option (list candidate);
  votingResult : option string
}.

(** *** [voting.js]: [votingState] *)

Record votingState : Type := VotingState {
  votes : gmap string Z;
  candidateFeedback : gmap string string;
  workerFeedback : gmap string string;
  overallFeedback : string;
  synthesizerFeedback : string;
  promptRating : number;
  promptFeedback : string
}.

(** *** [session.js]: the module-level variables *)

Record logEntry : Type := LogEntry {
  entry_stage : string;
  entry_workerId : option string;
  entry_personaName : option string;
  entry_content : string;
  entry_type : string
}.

Record sessionVars : Type := SessionVars {
  logEntries : list logEntry;
  currentRound : number;
  totalRounds : number;
  roundWorkerFeedback : gmap string string;
  argumentWorkerFeedback : gmap string string;
  collabWorkerFeedback : gmap string string
}.

(** *** The part of the document the handlers read back

    [element_ids] are the ids present in the page, [value] holds the
    [value] / [textContent] last written per id, [disabled] the
    [disabled] flag per id.  Styling and class changes are not kept. *)
Record document : Type := Document {
  element_ids : gset string;
  value : gmap string string;
  disabled : gmap string bool
}.

Record world : Type := World {
  app : state;
  sessionStorage : gmap string string;
  voting : votingState;
  session : sessionVars;
  page : document;
  trace : list effect
}.

(** Field updates. *)
Definition with_app (f : state → state) (w : world) : world :=
  World (f (app w)) (sessionStorage w) (voting w) (session w) (page w) (trace w).
Definition with_storage (f : gmap string string → gmap string string) (w : world) : world :=
  World (app w) (f (sessionStorage w)) (voting w) (session w) (page w) (trace w).
Definition with_voting (f : votingState → votingState) (w : world) : world :=
  World (app w) (sessionStorage w) (f (voting w)) (session w) (page w) (trace w).
Definition with_session (f : sessionVars → sessionVars) (w : world) : world :=
  World (app w) (sessionStorage w) (voting w) (f (session w)) (page w) (trace w).
Definition with_page (f : document → document) (w : world) : world :=
  World (app w) (sessionStorage w) (voting w) (session w) (f (page w)) (trace w).
Definition emit (e : effect) (w : world) : world :=
  World (app w) (sessionStorage w) (voting w) (session w) (page w) (trace w ++ [e]).

Definition set_currentView (v : string) (s : state) : state :=
  State v (currentMode s) (sessionId s) (sessionActive s) (personas s)
        (workers s) (state_config s) (state_tokenStats s) (candidates s) (votingResult s).
Definition set_currentMode (m : string) (s : state) : state :=
  State (currentView s) m (sessionId s) (sessionActive s) (personas s)
        (workers s) (state_config s) (state_tokenStats s) (candidates s) (votingResult s).
Definition set_sessionId (i : option string) (s : state) : state :=
  State (currentView s) (currentMode s) i (sessionActive s) (personas s)
        (workers s) (state_config s) (state_tokenStats s) (candidates s) (votingResult s).
Definition set_sessionActive (a : bool) (s : state) : state :=
  State (currentView s) (currentMode s) (sessionId s) a (personas s)
        (workers s) (state_config s) (state_tokenStats s) (candidates s) (votingResult s).
Definition set_workers (ws : list worker) (s : state) : state :=
  State (currentView s) (currentMode s) (sessionId s) (sessionActive s) (personas s)
        ws (state_config s) (state_tokenStats s) (candidates s) (votingResult s).
Definition set_config (c : option config) (s : state) : state :=
  State (currentView s) (currentMode s) (sessionId s) (sessionActive s) (personas s)
        (workers s) c (state_tokenStats s) (candidates s) (votingResult s).
Definition set_candidates (c : option (list candidate)) (s : state) : state :=
  State (currentView s) (currentMode s) (sessionId s) (sessionActive s) (personas s)
        (workers s) (state_config s) (state_tokenStats s) c (votingResult s).
Definition set_votingResult (r : option string) (s : state) : state :=
  State (currentView s) (currentMode s) (sessionId s) (sessionActive s) (personas s)
        (workers s) (state_config s) (state_tokenStats s) (candidates s) r.

(** [document.getElementById(id)] is not [null]. *)
Definition has_element (id : string) (w : world) : bool :=
  bool_decide (id ∈ element_ids (page w)).

(** [el.value = v] / [el.textContent = v] behind an [if (el)] guard. *)
Definition write_value (id v : string) (w : world) : world :=
  if has_element id w
  then with_page (λ d, Document (element_ids d) (<[id := v]> (value d)) (disabled d)) w
  else w.

Definition write_disabled (id : string) (b : bool) (w : world) : world :=
  if has_element id w
  then with_page (λ d, Document (element_ids d) (value d) (<[id := b]> (disabled d))) w
  else w.

(** [`${state.sessionId}`] inside a URL: [null] prints as ["null"]. *)
Definition sessionId_text (s : state) : string :=
  default "null" (sessionId s).

(** ** [session.js]: the session log and the worker roster *)

(** [appendLog(stage, workerId, personaName, content, type = 'info')].
    The entry's wall-clock [timestamp] is not kept. *)
Definition appendLog (stage : string) (workerId personaName : option string)
    (content type : string) (w : world) : world :=
  with_session (λ v,
    SessionVars (logEntries v ++ [LogEntry stage workerId personaName content type])
      (currentRound v) (totalRounds v) (roundWorkerFeedback v)
      (argumentWorkerFeedback v) (collabWorkerFeedback v)) w.

Definition clearLog (w : world) : world :=
  with_session (λ v,
    SessionVars [] (currentRound v) (totalRounds v) (roundWorkerFeedback v)
      (argumentWorkerFeedback v) (collabWorkerFeedback v)) w.

(** [`worker_${i + 1}`] for the loop index [i]. *)
Definition worker_name (i : nat) : string :=
  "worker_" ++ number_to_string (Num (Z.of_nat i + 1)).

(** The number of rounds of [for (let i = 0; i < n; i++)], and the
    length of [Array.from({ length: n })]. *)
Definition iterations (n : number) : nat :=
  match n with
  | NaN => O
  | Num z => Z.to_nat z
  end.

(** [state.config?.worker_count]: [undefined] without a config. *)
Definition configured_worker_count (s : state) : number :=
  match state_config s with
  | Some c => worker_count c
  | None => NaN
  end.

(** [updateWorkerRoster]: with an empty [state.workers] the roster is
    rebuilt from the configured count and stored back into the state. *)
Definition updateWorkerRoster (w : world) : world :=
  if has_element "roster-members" w then
    match workers (app w) with
    | [] =>
        let workerCount := or_else (configured_worker_count (app w)) (Num 2) in
        let fallbackWorkers :=
          map (λ i, Worker (worker_name i) (Persona None "Default"))
              (seq 0 (iterations workerCount)) in
        with_app (set_workers fallbackWorkers) w
    | _ :: _ => w
    end
  else w.

(** ** [app.js] *)

Definition SESSION_ID : string := "ai_council_session_id".
Definition SESSION_ACTIVE : string := "ai_council_session_active".
Definition CURRENT_VIEW : string := "ai_council_current_view".

Definition clearSessionState (w : world) : world :=
  with_storage (λ st, delete CURRENT_VIEW (delete SESSION_ACTIVE (delete SESSION_ID st))) w.

(** [if (state.sessionId)]: neither [null] nor the empty string. *)
Definition has_session (s : state) : bool :=
  match sessionId s with
  | Some id => negb (String.eqb id "")
  | None => false
  end.

Definition saveSessionState (w : world) : world :=
  if has_session (app w) then
    with_storage (λ st,
      <[CURRENT_VIEW := currentView (app w)]>
        (<[SESSION_ACTIVE := if sessionActive (app w) then "true" else "false"]>
          (<[SESSION_ID := sessionId_text (app w)]> st))) w
  else clearSessionState w.

Definition showView (viewName : string) (w : world) : world :=
  if has_element ("view-" ++ viewName) w
  then saveSessionState (with_app (set_currentView viewName) w)
  else w.

(** [updateSessionUI], as far as the document model goes: the start
    button and the prompt are locked while a session is shown active. *)
Definition updateSessionUI (w : world) : world :=
  let locked := sessionActive (app w) && has_session (app w) in
  write_disabled "prompt-input" locked (write_disabled "btn-start" locked w).

(** [initializeWorkerCards]: rebuilds [state.workers] for the configured
    count, or for the mode's default when none is configured. *)
Definition initializeWorkerCards (w : world) : world :=
  if has_element "workers-grid" w then
    let s := app w in
    let workerCount :=
      or_else (configured_worker_count s)
              (Num (if String.eqb (currentMode s) "32GB" then 3 else 2)) in
    with_app (set_workers
      (map (λ i, Worker (worker_name i)
                   (default (Persona None "Default") (personas s !! i)))
           (seq 0 (iterations workerCount)))) w
  else w.

Definition newline : string := String (ascii_of_nat 10) "".

(** [endCouncil(showConfirm = true)].  [confirmed] is the user's answer
    to the dialog, asked only when [showConfirm] holds; [sessionScript]
    tells whether [window.aiCouncil.session] is there. *)
Definition endCouncil (showConfirm confirmed sessionScript : bool)
    (w : world) : bool * world :=
  let asked :=
    emit (Confirm ("End this council session?" ++ newline ++ newline ++
                   "The session log and feedback have been saved." ++ newline ++
                   "You can start a new council after ending this one.")) w in
  if showConfirm && negb confirmed then (false, asked)
  else
    let w := if showConfirm then asked else w in
    (* Clear session state *)
    let w := with_app (λ s, set_sessionActive false (set_sessionId None s)) w in
    let w := clearSessionState w in
    (* Reset UI *)
    let w := updateSessionUI w in
    (* Reset worker outputs *)
    let w := initializeWorkerCards w in
    (* Clear chat timeline and logs *)
    let w := if sessionScript then updateWorkerRoster (clearLog w) else w in
    (* Reset prompt area *)
    let w := write_disabled "prompt-input" false (write_value "prompt-input" "" w) in
    (* Disable diversify button *)
    let w := write_disabled "btn-diversify" true w in
    let w := if sessionScript
             then appendLog "system" None None "Session ended by user" "info" w
             else w in
    (* Go to session view *)
    (true, showView "session" w).

(** [updateModeUI], as far as the document model goes. *)
Definition updateModeUI (w : world) : world :=
  let w := write_value "status-mode" (currentMode (app w)) w in
  match state_config (app w) with
  | Some c => write_value "status-workers" (number_to_string (worker_count c)) w
  | None => w
  end.

(** [setMode(mode)].  [response] is what [POST /api/config/mode]
    answers: the new configuration, or [None] when the call fails. *)
Definition setMode (mode : string) (response : option config) (w : world) : world :=
  if sessionActive (app w) then
    emit (Alert ("Cannot change mode while a council session is active." ++
                 newline ++ newline ++
                 "Please end the current council first.")) w
  else
    let w := emit (Fetch "POST" "/api/config/mode" [("mode", VStr mode)]) w in
    match response with
    | Some result =>
        let w := with_app (λ s, set_config (Some result)
                                  (set_currentMode (config_mode result) s)) w in
        initializeWorkerCards (updateModeUI w)
    | None => emit (ConsoleError "Failed to set mode:") w
    end.

(** [updateWorkerCount(count)] *)
Definition updateWorkerCount (count : number) (w : world) : world :=
  let w := with_app (λ s,
             match state_config s with
             | Some c => set_config (Some (Config (config_mode c) count)) s
             | None => s
             end) w in
  let w := initializeWorkerCards w in
  write_value "status-workers" (number_to_string count) w.

Definition maxWorkers (s : state) : number :=
  Num (if String.eqb (currentMode s) "32GB" then 4 else 3).

(** The count the [change] listener of the worker-count control derives
    from the control's text. *)
Definition clampedCount (s : state) (entered : string) : number :=
  Math_min (Math_max (parseInt entered) (Num 2)) (maxWorkers s).

(** The [change] listener of [#setting-worker-count]; [entered] is the
    control's [value] when the event fires. *)
Definition workerCount_change (entered : string) (w : world) : world :=
  let clamped := clampedCount (app w) entered in
  let w := write_value "setting-worker-count" (number_to_string clamped) w in
  updateWorkerCount clamped w.

(** [a < b] on numbers: false as soon as one side is [NaN]. *)
Definition number_lt (a b : number) : bool :=
  match a, b with
  | Num x, Num y => x <? y
  | _, _ => false
  end.

Definition number_succ (a : number) : number :=
  match a with
  | Num x => Num (x + 1)
  | NaN => NaN
  end.

(** The [click] listener of [#btn-add-worker]. *)
Definition addWorker_click (w : world) : world :=
  let currentCount :=
    or_else (parseInt (default "" (value (page w) !! "setting-worker-count"))) (Num 2) in
  if number_lt currentCount (maxWorkers (app w)) then
    let w := write_value "setting-worker-count"
               (number_to_string (number_succ currentCount)) w in
    updateWorkerCount (number_succ currentCount) w
  else
    emit (Alert ("Maximum " ++ number_to_string (maxWorkers (app w)) ++
                 " workers allowed in " ++ currentMode (app w) ++ " mode")) w.

(** ** [voting.js] *)

Definition initial_votingState : votingState :=
  VotingState ∅ ∅ ∅ "" "" (Num 0) "".

Definition set_votes (vs : gmap string Z) (v : votingState) : votingState :=
  VotingState vs (candidateFeedback v) (workerFeedback v) (overallFeedback v)
              (synthesizerFeedback v) (promptRating v) (promptFeedback v).

(** [f && f.trim()] is truthy. *)
Definition has_text (f : string) : bool :=
  negb (String.eqb (trim_start f) "").

(** [Object.values(m).some(p)] *)
Definition some_value {A} (p : A → bool) (m : gmap string A) : bool :=
  existsb p (map_to_list m).*2.

(** [!candidates || candidates.length === 0] *)
Definition no_candidates (c : option (list candidate)) : bool :=
  match c with
  | None | Some [] => true
  | Some (_ :: _) => false
  end.

(** [updateSubmitButton].  [promptRating] is always a number, so
    [hasPromptRating] (neither [null] nor [undefined]) always holds. *)
Definition canSubmit (w : world) : bool :=
  let v := voting w in
  let hasVotes := some_value (λ r, 0 <? r) (votes v) in
  let hasCandidateFeedback := some_value has_text (candidateFeedback v) in
  let hasOverallFeedback := has_text (overallFeedback v) in
  let hasWorkerFeedback := some_value has_text (workerFeedback v) in
  let hasPromptFeedback := has_text (promptFeedback v) in
  let hasPromptRating := true in
  let hasCandidates := negb (no_candidates (candidates (app w))) in
  hasCandidates || hasVotes || hasCandidateFeedback || hasOverallFeedback ||
  hasWorkerFeedback || hasPromptFeedback || hasPromptRating.

Definition updateSubmitButton (w : world) : world :=
  write_disabled "btn-submit-votes" (negb (canSubmit w)) w.

(** [buildVotingUI(candidates, aiScores, arguments, workers)]: the
    voting state is reset; without candidates the submit button is
    switched on and relabelled for a feedback-only submission. *)
Definition buildVotingUI (cands : option (list candidate)) (w : world) : world :=
  (* Reset voting state *)
  let w := with_voting (λ _, initial_votingState) w in
  (* Handle case when no candidates were synthesized *)
  let w := if no_candidates cands
           then (* Enable submit button for feedback-only submission *)
                write_value "btn-submit-votes" "Submit Feedback"
                  (write_disabled "btn-submit-votes" false w)
           else w in
  (* Reset overall and synthesizer feedback textareas *)
  let w := write_value "synthesizer-feedback" "" (write_value "overall-feedback" "" w) in
  (* Update submit button state *)
  updateSubmitButton w.

(** The loop of [setVote]: every other candidate holding [rank] falls
    back to [0] (skip). *)
Definition clear_rank (candidateId : string) (rank : Z)
    (vs : gmap string Z) : gmap string Z :=
  map_imap (λ cid r,
    Some (if bool_decide (cid ≠ candidateId) && (r =? rank) then 0 else r)) vs.

Definition setVote_votes (candidateId : string) (rank : Z)
    (vs : gmap string Z) : gmap string Z :=
  <[candidateId := rank]> (if 0 <? rank then clear_rank candidateId rank vs else vs).

(** [setVote(candidateId, rank)] *)
Definition setVote (candidateId : string) (rank : Z) (w : world) : world :=
  updateSubmitButton
    (with_voting (λ v, set_votes (setVote_votes candidateId rank (votes v)) v) w).

(** The object [submitVotes] posts. *)
Definition submitData (v : votingState) : body :=
  [ ("votes", VRanks (votes v));
    ("candidate_feedback", VTexts (candidateFeedback v));
    ("overall_feedback", VStr (overallFeedback v));
    ("worker_feedback", VTexts (workerFeedback v));
    ("synthesizer_feedback", VStr (synthesizerFeedback v));
    ("prompt_rating", VNum (promptRating v));
    ("prompt_feedback", VStr (promptFeedback v)) ].

(** [submitVotes()].  [response] is the answer of [POST vote]: the
    voting result, or [None] when the call fails.  On success the
    finalize stream is opened. *)
Definition submitVotes (response : option string) (w : world) : world :=
  (* Check if there are candidates to vote on *)
  if no_candidates (candidates (app w)) then
    emit (Alert "No candidates available to vote on. The synthesis may have failed.") w
  else
    let w := emit (Fetch "POST" ("/api/session/" ++ sessionId_text (app w) ++ "/vote")
                         (submitData (voting w))) w in
    match response with
    | Some result =>
        let w := with_app (set_votingResult (Some result)) w in
        emit (OpenEventSource ("/api/session/" ++ sessionId_text (app w) ++ "/finalize")) w
    | None =>
        (* the error's own message follows the prefix *)
        emit (Alert "Failed to submit votes: ")
             (emit (ConsoleError "Failed to submit votes:") w)
    end.

(** ** [session.js]: feedback submission and the event streams *)

Definition set_rounds (round total : number) (v : sessionVars) : sessionVars :=
  SessionVars (logEntries v) round total (roundWorkerFeedback v)
              (argumentWorkerFeedback v) (collabWorkerFeedback v).
Definition set_roundWorkerFeedback (m : gmap string string) (v : sessionVars) : sessionVars :=
  SessionVars (logEntries v) (currentRound v) (totalRounds v) m
              (argumentWorkerFeedback v) (collabWorkerFeedback v).
Definition set_argumentWorkerFeedback (m : gmap string string) (v : sessionVars) : sessionVars :=
  SessionVars (logEntries v) (currentRound v) (totalRounds v) (roundWorkerFeedback v)
              m (collabWorkerFeedback v).
Definition set_collabWorkerFeedback (m : gmap string string) (v : sessionVars) : sessionVars :=
  SessionVars (logEntries v) (currentRound v) (totalRounds v) (roundWorkerFeedback v)
              (argumentWorkerFeedback v) m.

(** The three streaming endpoints of a session. *)
Inductive endpoint : Type := run | continue | diversify.

Definition stream_url (ep : endpoint) (s : state) : string :=
  "/api/session/" ++ sessionId_text s ++
  match ep with
  | run => "/run"
  | continue => "/continue"
  | diversify => "/diversify"
  end.

(** [new EventSource(...)] in [runPipeline], [continuePipeline] and
    [diversifyWorkers]. *)
Definition open_stream (ep : endpoint) (w : world) : world :=
  emit (OpenEventSource (stream_url ep (app w))) w.

(** The bodies the three feedback calls post. *)
Definition round_feedback_body (v : sessionVars) (skipToSynthesis : bool) : body :=
  [ ("round", VNum (currentRound v));
    ("worker_feedback", VTexts (roundWorkerFeedback v));
    ("skip_to_synthesis", VBool skipToSynthesis) ].

Definition collab_feedback_body (v : sessionVars) (skip : bool) : body :=
  [ ("round", VNum (currentRound v));
    ("worker_feedback", VTexts (collabWorkerFeedback v));
    ("skip_to_synthesis", VBool skip) ].

Definition argument_feedback_body (v : sessionVars) (skipToVoting : bool) : body :=
  [ ("round", VNum (currentRound v));
    ("worker_feedback", VTexts (argumentWorkerFeedback v));
    ("skip_to_voting", VBool skipToVoting) ].

Definition feedback_url (s : state) (name : string) : string :=
  "/api/session/" ++ sessionId_text s ++ "/" ++ name.

(** [Object.keys(m).length > 0] *)
Definition non_empty (m : gmap string string) : bool :=
  negb (bool_decide (m = ∅)).

(** [submitRoundFeedback(skipToSynthesis = false)].  [ok] tells whether
    the POST succeeded; the error's own message follows the prefixes. *)
Definition submitRoundFeedback (skipToSynthesis ok : bool) (w : world) : world :=
  let v := session w in
  let w := emit (Fetch "POST" (feedback_url (app w) "round-feedback")
                       (round_feedback_body v skipToSynthesis)) w in
  if ok then
    let w := if non_empty (roundWorkerFeedback v)
             then appendLog "system" None None
                    ("Round " ++ number_to_string (currentRound v) ++ " feedback submitted")
                    "info" w
             else w in
    let w := appendLog "system" None None
               (if skipToSynthesis then "Skipping to synthesis..."
                else "Continuing to " ++
                     (if number_lt (currentRound v) (totalRounds v)
                      then "round " ++ number_to_string (number_succ (currentRound v))
                      else "synthesis") ++ "...")
               "info" w in
    open_stream continue w
  else
    emit (Alert "Failed to submit feedback: ")
      (appendLog "system" None None "Error: " "error"
        (emit (ConsoleError "Failed to submit round feedback:") w)).

(** [submitCollabFeedback], up to its [await]: the request goes out. *)
Definition submitCollabFeedback_send (skip : bool) (w : world) : world :=
  emit (Fetch "POST" (feedback_url (app w) "collab-feedback")
              (collab_feedback_body (session w) skip)) w.

(** [submitCollabFeedback(skip = false)] *)
Definition submitCollabFeedback (skip ok : bool) (w : world) : world :=
  let v := session w in
  let w := submitCollabFeedback_send skip w in
  if ok then
    let w := appendLog "system" None None
               (if skip then "Skipping to synthesis..."
                else "Collaboration round " ++ number_to_string (currentRound v) ++
                     " feedback submitted")
               "info" w in
    open_stream continue w
  else
    emit (Alert "Failed to submit feedback: ")
      (emit (ConsoleError "Failed to submit collaboration feedback:") w).

(** [submitArgumentFeedback(skipToVoting = false)] *)
Definition submitArgumentFeedback (skipToVoting ok : bool) (w : world) : world :=
  let v := session w in
  let w := emit (Fetch "POST" (feedback_url (app w) "argument-feedback")
                       (argument_feedback_body v skipToVoting)) w in
  if ok then
    let w := if non_empty (argumentWorkerFeedback v)
             then appendLog "argument" None None
                    ("Argument round " ++ number_to_string (currentRound v) ++
                     " feedback submitted")
                    "info" w
             else w in
    let w := appendLog "system" None None
               (if skipToVoting then "Skipping to voting..." else "Continuing argumentation...")
               "info" w in
    open_stream continue w
  else
    emit (Alert "Failed to submit feedback: ")
      (appendLog "system" None None "Error: " "error"
        (emit (ConsoleError "Failed to submit argument feedback:") w)).

(** *** Pipeline events *)

(** The payload of a [worker_complete] event; the handler looks for
    [draft], [refinement], [argument], [diversified], [collaboration],
    in this order. *)
Inductive workerOutput : Type :=
  | NoOutput
  | Draft (summary : string)
  | Refinement (updated_summary raw_text : string)
  | Argument (main_argument : string)
  | Diversified (summary : string)
  | Collaboration (collaborative_summary raw_text : string).

Record event : Type := Event {
  event_type : string;
  event_stage : option string;
  event_worker_id : option string;
  event_persona : option string;
  event_output : workerOutput;
  event_message : string;
  event_round : number;
  event_total_rounds : number;
  event_questions : option nat;          (* sets of questions *)
  event_compatibility : option string;
  event_candidates : option (list candidate);
  event_scores : bool;
  event_worker_info : list worker
}.

(** [STAGES[stage]?.logStage] *)
Definition STAGES : list (string * string) :=
  [ ("worker_drafts", "draft"); ("synth_questions", "questions");
    ("worker_refinement_1", "refinement"); ("worker_refinement_2", "refinement");
    ("worker_refinement_3", "refinement"); ("worker_refinement_4", "refinement");
    ("worker_refinement_5", "refinement"); ("diversify", "refinement");
    ("compatibility_check", "synthesis");
    ("collaboration_round_1", "collaboration"); ("collaboration_round_2", "collaboration");
    ("collaboration_round_3", "collaboration");
    ("candidate_synthesis", "synthesis"); ("argumentation", "argument");
    ("argumentation_round_1", "argument"); ("argumentation_round_2", "argument");
    ("argumentation_round_3", "argument");
    ("ai_voting", "voting"); ("axiom_analysis", "axiom");
    ("final_output", "synthesis"); ("user_voting", "voting") ].

Definition logStage (stage : string) : option string :=
  snd <$> find (λ p, String.eqb (fst p) stage) STAGES.

(** [a || b] on strings. *)
Definition or_text (a b : string) : string :=
  if String.eqb a "" then b else a.

(** [truncate(text, maxLength)] *)
Definition truncate (text : string) (maxLength : nat) : string :=
  if (String.length text <=? maxLength)%nat then text
  else substring 0 maxLength text ++ "...".

(** [state.workers.find(w => w.id === id)?.persona?.name] *)
Definition persona_of (s : state) (id : option string) : option string :=
  wid ← id;
  wk ← find (λ k, String.eqb (worker_id k) wid) (workers s);
  Some (persona_name (worker_persona wk)).

(** [transitionToVoting] *)
Definition transitionToVoting (worker_info : list worker) (w : world) : world :=
  let w := match workers (app w), worker_info with
           | [], _ :: _ => with_app (set_workers worker_info) w
           | _, _ => w
           end in
  showView "voting" (buildVotingUI (candidates (app w)) w).

(** [handlePipelineEvent(event)]: what it does to the state, the
    session log and the round variables.  Chat-timeline rendering and
    token accounting are display only and left out; the page is taken
    to hold the modals that the handler dereferences without a guard. *)
Definition handlePipelineEvent (e : event) (w : world) : world :=
  let ty := event_type e in
  let round_text :=
    number_to_string (event_round e) ++ "/" ++ number_to_string (event_total_rounds e) in
  if String.eqb ty "stage_start" then
    match event_stage e with
    | Some stage =>
        match logStage stage with
        | Some ls => appendLog ls None None ("Stage started: " ++ stage) "info" w
        | None => w
        end
    | None => w
    end
  else if String.eqb ty "worker_start" then
    let personaName :=
      match event_persona e with
      | Some p => Some p
      | None => persona_of (app w) (event_worker_id e)
      end in
    appendLog "draft" (event_worker_id e) personaName
      ("Started working on " ++ default "task" (event_stage e)) "info" w
  else if String.eqb ty "worker_complete" then
    let workerPersona := persona_of (app w) (event_worker_id e) in
    match event_output e with
    | Draft summary =>
        appendLog "draft" (event_worker_id e) workerPersona ("Draft: " ++ summary) "info" w
    | Refinement updated raw =>
        appendLog "refinement" (event_worker_id e) workerPersona
          ("Refinement: " ++ or_text updated (or_text raw "Updated proposal")) "info" w
    | Argument main =>
        appendLog "argument" (event_worker_id e) workerPersona ("Argument: " ++ main) "info" w
    | Diversified summary =>
        appendLog "refinement" (event_worker_id e) workerPersona
          ("Diversified: " ++ summary) "info" w
    | Collaboration summary raw =>
        appendLog "collaboration" (event_worker_id e) workerPersona
          ("Collaboration: " ++ truncate (or_text summary (or_text raw "Collaborated")) 150)
          "info" w
    | NoOutput => w
    end
  else if String.eqb ty "synth_commentary" then
    appendLog "synthesis" (Some "synthesizer") None
      ("Commentary: " ++ truncate (event_message e) 100) "info" w
  else if String.eqb ty "stage_complete" then
    let w := match event_questions e with
             | Some n => appendLog "questions" (Some "synthesizer") None
                           ("Generated " ++ number_to_string (Num (Z.of_nat n)) ++
                            " sets of questions") "info" w
             | None => w
             end in
    let w := match event_compatibility e with
             | Some c => appendLog "synthesis" (Some "synthesizer") None
                           ("Compatibility: " ++ or_text c "unknown") "info" w
             | None => w
             end in
    let w := match event_candidates e with
             | Some cs =>
                 appendLog "synthesis" (Some "synthesizer") None
                   ("Synthesized " ++ number_to_string (Num (Z.of_nat (length cs))) ++
                    " candidates") "info"
                   (with_app (set_candidates (Some cs)) w)
             | None => w
             end in
    if event_scores e
    then appendLog "voting" (Some "synthesizer") None "AI scoring complete" "info" w
    else w
  else if String.eqb ty "memory_warning" then
    appendLog "system" None None ("Memory warning: " ++ event_message e) "warning" w
  else if String.eqb ty "awaiting_user_input" then
    match event_stage e with
    | Some stage =>
        if String.eqb stage "user_voting" then
          let w := with_app (set_candidates (event_candidates e)) w in
          let w := appendLog "voting" None None
                     "Pipeline complete - awaiting user vote" "info" w in
          transitionToVoting (event_worker_info e) w
        else w
    | None => w
    end
  else if String.eqb ty "awaiting_round_feedback" then
    let w := with_session (set_rounds (event_round e) (event_total_rounds e)) w in
    let w := appendLog "refinement" None None
               ("Round " ++ round_text ++ " complete - awaiting feedback") "info" w in
    (* showRoundFeedbackModal *)
    with_session (set_roundWorkerFeedback ∅) w
  else if String.eqb ty "awaiting_collab_feedback" then
    let w := with_session (set_rounds (event_round e) (event_total_rounds e)) w in
    let w := appendLog "collaboration" None None
               ("Collaboration round " ++ round_text ++ " complete - awaiting feedback")
               "info" w in
    (* showCollabFeedbackModal *)
    if has_element "collab-feedback-modal" w
    then with_session (set_collabWorkerFeedback ∅) w
    else submitCollabFeedback_send true w
  else if String.eqb ty "awaiting_argument_feedback" then
    let w := with_session (set_rounds (event_round e) (event_total_rounds e)) w in
    let w := appendLog "argument" None None
               ("Argument round " ++ round_text ++ " complete - awaiting feedback") "info" w in
    (* showArgumentFeedbackModal *)
    with_session (set_argumentWorkerFeedback ∅) w
  else if String.eqb ty "error" then
    appendLog "system" None None ("Error: " ++ event_message e) "error" w
  else if String.eqb ty "complete" then
    appendLog "system" None None "Operation complete" "info" w
  else w.

(** *** The event streams

    Each of [runPipeline], [continuePipeline] and [diversifyWorkers]
    creates one [EventSource] and installs an [onmessage] and an
    [onerror] handler on it.  A closed [EventSource] dispatches nothing
    further.  [dispatched] records, for reasoning only, the events that
    [onmessage] was invoked with. *)

Inductive readyState : Type := OPEN | CLOSED.

Record eventSource : Type := EventSource {
  source_endpoint : endpoint;
  source_readyState : readyState;
  dispatched : list event
}.

(** The test that guards [eventSource.close()] in each [onmessage]. *)
Definition closes_on (ep : endpoint) (ty : string) : bool :=
  match ep with
  | run =>
      String.eqb ty "complete" || String.eqb ty "awaiting_user_input"
  | continue =>
      String.eqb ty "complete" || String.eqb ty "awaiting_user_input" ||
      String.eqb ty "awaiting_round_feedback" || String.eqb ty "awaiting_argument_feedback"
  | diversify =>
      String.eqb ty "complete" || String.eqb ty "error"
  end.

Definition close (es : eventSource) : eventSource :=
  EventSource (source_endpoint es) CLOSED (dispatched es).

(** What [onmessage] does once it has closed a stream. *)
Definition after_close (ep : endpoint) (w : world) : world :=
  let w := emit (CloseEventSource (stream_url ep (app w))) w in
  match ep with
  | diversify => write_disabled "btn-diversify" false w
  | _ => w
  end.

Definition onmessage (e : event) (c : eventSource * world) : eventSource * world :=
  let '(es, w) := c in
  match source_readyState es with
  | CLOSED => c
  | OPEN =>
      let es := EventSource (source_endpoint es) OPEN (dispatched es ++ [e]) in
      let w := handlePipelineEvent e w in
      if closes_on (source_endpoint es) (event_type e)
      then (close es, after_close (source_endpoint es) w)
      else (es, w)
  end.

Definition onerror (c : eventSource * world) : eventSource * world :=
  let '(es, w) := c in
  match source_readyState es with
  | CLOSED => c
  | OPEN =>
      let w := emit (CloseEventSource (stream_url (source_endpoint es) (app w))) w in
      (close es,
       match source_endpoint es with
       | run =>
           appendLog "system" None None "Pipeline connection lost" "error"
             (write_value "progress-text" "Connection lost. Please try again."
               (emit (ConsoleError "Pipeline connection lost") w))
       | continue =>
           appendLog "system" None None "Pipeline connection lost" "error"
             (emit (ConsoleError "Pipeline connection lost") w)
       | diversify =>
           write_disabled "btn-diversify" false
             (appendLog "system" None None "Diversify connection lost" "error" w)
       end)
  end.

(** What the network hands to an [EventSource]. *)
Inductive delivery : Type :=
  | Message (e : event)
  | ConnectionLost.

Definition deliver_one (c : eventSource * world) (d : delivery) : eventSource * world :=
  match d with
  | Message e => onmessage e c
  | ConnectionLost => onerror c
  end.

Definition deliver (ds : list delivery) (c : eventSource * world) : eventSource * world :=
  fold_left deliver_one ds c.

(** [runPipeline()], [continuePipeline()] and the stream part of
    [diversifyWorkers()]: a fresh, open [EventSource]. *)
Definition connect (ep : endpoint) (w : world) : eventSource * world :=
  (EventSource ep OPEN [], open_stream ep w).

(** ** [app.js]: swapping a worker's persona *)

(** What [POST swap-persona] answers. *)
Record swapResult : Type := SwapResult {
  new_persona_name : string;
  state_cleared : bool
}.

(** [workers[workerIndex].persona = persona] for the worker called [id]. *)
Definition rebind (id : string) (p : persona) (ws : list worker) : list worker :=
  match list_find (λ k, worker_id k = id) ws with
  | Some (i, _) => <[i := Worker id p]> ws
  | None => ws
  end.

(** [confirmSwap()].  [currentSwapWorker] is the worker the modal was
    opened for, [newPersonaId] and [action] are the modal's selections,
    [response] is the server's answer, [None] when the call fails. *)
Definition confirmSwap (currentSwapWorker : option string) (newPersonaId action : string)
    (response : option swapResult) (w : world) : world :=
  match currentSwapWorker with
  | Some wid =>
      if has_session (app w) && negb (String.eqb wid "") then
        let w := emit (Fetch "POST"
                   ("/api/session/" ++ sessionId_text (app w) ++ "/swap-persona")
                   [ ("worker_id", VStr wid); ("persona_id", VStr newPersonaId);
                     ("action", VStr action) ]) w in
        match response with
        | Some result =>
            let w := write_value ("persona-" ++ wid) (new_persona_name result) w in
            if state_cleared result
            then write_value ("output-" ++ wid) "Persona swapped. Waiting for re-run..." w
            else w
        | None =>
            emit (Alert "Failed to swap persona: ")
                 (emit (ConsoleError "Failed to swap persona:") w)
        end
      else
        (* If no session, just update local state *)
        match find (λ p, bool_decide (persona_id p = Some newPersonaId)) (personas (app w)) with
        | Some p =>
            if bool_decide (wid ∈ worker_id <$> workers (app w))
            then write_value ("persona-" ++ wid) (persona_name p)
                   (with_app (λ s, set_workers (rebind wid p (workers s)) s) w)
            else w
        | None => w
        end
  | None => w
  end.

(** ** The Vote Aggregator *)

Module Aggregator.

Local Open Scope Q_scope.

(** Modelled from the spec: the Vote Aggregator runs on the server and
    is not among the client sources.  A human rank among [k] ranks is
    put on a 0 to 10 scale, linearly spaced by rank count (with three
    ranks: 1st gives 10, 2nd 6.67, 3rd 3.33); skip (rank 0) and
    unranked give 0. *)
Definition human_score (k : positive) (rank : Z) : Q :=
  if ((0 <? rank) && (rank <=? Z.pos k))%Z
  then (10 * ((Z.pos k - rank + 1) # 1)) / (Z.pos k # 1)
  else 0.

(** Modelled from the spec: the Vote Aggregator's weighting, fixed at
    combined score = machine score × 0.4 + human score × 0.6. *)
Definition combined_score (machine human : Q) : Q :=
  machine * (4 # 10) + human * (6 # 10).

(** Modelled from the spec: the Vote Aggregator's pass over the
    candidates, pairing each candidate id with its combined score.
    [machine] holds the machine scores in candidate order, [ranks]
    the human ranks by candidate id (absent means unranked). *)
Definition aggregate (k : positive) (machine : list (string * Q))
    (ranks : gmap string Z) : list (string * Q) :=
  map (λ '(cid, m), (cid, combined_score m (human_score k (default 0%Z (ranks !! cid)))))
      machine.

End Aggregator.

(** ** The Persona Binding Layer *)

Module PersonaBinding.

Inductive swapMode : Type := keep_all | archive | restart.

Inductive status : Type := active | awaiting_input | completed | aborted | error.

Record StageOutput : Type := {
  output_stage : string;
  output_persona : string;     (* the persona that produced it *)
  output_text : string;
  output_hidden : bool
}.

(** A worker slot: the bound persona, the per-stage output history and
    the stage cursor, [true] once the slot has executed the session's
    current stage. *)
Record WorkerSlot : Type := {
  slot_persona : string;
  slot_history : list StageOutput;
  slot_done : bool
}.

Record LogEntry : Type := {
  log_stage : string;
  log_agent : string;
  log_persona : string;
  log_content : string
}.

Record Session : Type := {
  session_status : status;
  current_stage : string;
  slots : gmap string WorkerSlot;
  log : list LogEntry
}.

Definition hide (o : StageOutput) : StageOutput :=
  {| output_stage := output_stage o; output_persona := output_persona o;
     output_text := output_text o; output_hidden := true |}.

(** Modelled from the spec: what each swap mode of the Persona Binding
    Layer (server side, not among the client sources) does to the
    slot.  [keep_all] leaves the history intact, each output still
    tagged with the persona that produced it; [archive] hides the
    prior outputs; [restart] clears the history and resets the stage
    cursor. *)
Definition swap_slot (mode : swapMode) (new_persona : string)
    (sl : WorkerSlot) : WorkerSlot :=
  match mode with
  | keep_all =>
      {| slot_persona := new_persona; slot_history := slot_history sl;
         slot_done := slot_done sl |}
  | archive =>
      {| slot_persona := new_persona; slot_history := hide <$> slot_history sl;
         slot_done := slot_done sl |}
  | restart =>
      {| slot_persona := new_persona; slot_history := []; slot_done := false |}
  end.

Definition swap_legal (st : status) : bool :=
  match st with
  | active | awaiting_input => true
  | _ => false
  end.

(** Modelled from the spec: [swap(slot_id, new_persona_id, mode)] of
    the Persona Binding Layer.  Legal only while the session is
    active or awaiting input; always appends one log entry. *)
Definition swap (slot_id new_persona : string) (mode : swapMode)
    (s : Session) : option Session :=
  if swap_legal (session_status s) then
    sl ← slots s !! slot_id;
    Some {| session_status := session_status s;
            current_stage := current_stage s;
            slots := <[slot_id := swap_slot mode new_persona sl]> (slots s);
            log := log s ++ [ {| log_stage := current_stage s; log_agent := slot_id;
                                 log_persona := new_persona;
                                 log_content := "persona swap" |} ] |}
  else None.

(** The slots the next [run] / [resume] call executes: those whose
    cursor is reset. *)
Definition pending (s : Session) : gset string :=
  dom (filter (λ kv, slot_done kv.2 = false) (slots s)).

(** Modelled from the spec: the worker part of one [run] / [resume]
    call of the Stage Engine (server side).  Every pending slot
    executes the current stage once, with its bound persona; [infer]
    is the inference gateway. *)
Definition execute (infer : string → string → string → string)
    (stage slot_id : string) (sl : WorkerSlot) : WorkerSlot :=
  if slot_done sl then sl
  else {| slot_persona := slot_persona sl;
          slot_history := slot_history sl ++
            [ {| output_stage := stage; output_persona := slot_persona sl;
                 output_text := infer slot_id (slot_persona sl) stage;
                 output_hidden := false |} ];
          slot_done := true |}.

Definition run_workers (infer : string → string → string → string)
    (s : Session) : Session :=
  {| session_status := session_status s;
     current_stage := current_stage s;
     slots := map_imap (λ slot_id sl, Some (execute infer (current_stage s) slot_id sl))
                       (slots s);
     log := log s |}.

End PersonaBinding.

(** ** The scripts' initial values, and a few derived notions *)

(** The [state] literal of [app.js]. *)
Definition initial_state : state :=
  State "session" "16GB" None false [] [] None
        (TokenStats 0 0 0 0 8192 20480 0 0) None None.

(** The module-level [let]s of [session.js]. *)
Definition initial_sessionVars : sessionVars :=
  SessionVars [] (Num 0) (Num 2) ∅ ∅ ∅.

(** The client right after the scripts have loaded into a page holding
    the elements [ids]. *)
Definition initial_world (ids : gset string) : world :=
  World initial_state ∅ initial_votingState initial_sessionVars
        (Document ids ∅ ∅) [].

(** A run of vote-button clicks, oldest first. *)
Definition setVotes (calls : list (string * Z)) (w : world) : world :=
  fold_left (λ w call, setVote call.1 call.2 w) calls w.

(** No rank above 0 (skip) is held by two candidates. *)
Definition unique_ranks (vs : gmap string Z) : Prop :=
  ∀ c1 c2 r, 0 < r → vs !! c1 = Some r → vs !! c2 = Some r → c1 = c2.

(** No session is recorded, neither in [state] nor in [sessionStorage]. *)
Definition session_cleared (w : world) : Prop :=
  sessionId (app w) = None ∧ sessionActive (app w) = false ∧
  sessionStorage w !! SESSION_ID = None ∧
  sessionStorage w !! SESSION_ACTIVE = None ∧
  sessionStorage w !! CURRENT_VIEW = None.

(** The client with session [id] under way, as [startSession] and
    [setSessionActive(true, id)] leave [state]. *)
Definition started_world (ids : gset string) (id : string) : world :=
  with_app (λ s, set_sessionActive true (set_sessionId (Some id) s)) (initial_world ids).

(** An event of kind [ty] with every optional field absent. *)
Definition bare_event (ty : string) : event :=
  Event ty None None None NoOutput "" NaN NaN None None None false [].

(** The checkpoint event that opens the voting view, here with an
    empty candidate list. *)
Definition voting_event (cands : list candidate) : event :=
  Event "awaiting_user_input" (Some "user_voting") None None NoOutput ""
        NaN NaN None None (Some cands) false [].

(** The elements of the voting view that the handlers look up. *)
Definition voting_page : gset string :=
  {[ "view-voting"; "btn-submit-votes"; "overall-feedback"; "synthesizer-feedback" ]}.

(** The [POST]s in a trace, oldest first. *)
Definition posts (t : list effect) : list (string * body) :=
  omap (λ e, match e with
             | Fetch "POST" url b => Some (url, b)
             | _ => None
             end) t.






(** ** [app.js]: restoring a session, token accounting, pipeline settings *)

(** [loadSessionState()]: the stored session is taken over only when an
    id is stored and the stored flag is the string [true]. *)
Definition loadSessionState (w : world) : bool * world :=
  let st := sessionStorage w in
  let stored_active := bool_decide (st !! SESSION_ACTIVE = Some "true") in
  match st !! SESSION_ID with
  | Some id =>
      if negb (String.eqb id "") && stored_active then
        (true,
         with_app (λ s,
           let s := set_sessionActive stored_active (set_sessionId (Some id) s) in
           match st !! CURRENT_VIEW with
           | Some v => if String.eqb v "" then s else set_currentView v s
           | None => s
           end) w)
      else (false, w)
  | None => (false, w)
  end.

(** [setSessionActive(active, sessionId = null)].  [updateModeBlocker]
    only switches classes and radio buttons, which the document model
    does not keep. *)
Definition setSessionActive (active : bool) (id : option string) (w : world) : world :=
  let w := with_app (set_sessionActive active) w in
  let w := match id with
           | Some i => if String.eqb i "" then w else with_app (set_sessionId (Some i)) w
           | None => w
           end in
  saveSessionState (updateSessionUI w).

(** The token counts an event carries.  A count of [0] also stands for
    an absent field: the code tests every field for truthiness only. *)
Record tokenData : Type := TokenData {
  input_tokens : Z;
  output_tokens : Z;
  total_tokens : Z;
  context_limit : Z;
  context_used : Z
}.

Definition set_tokenStats (t : tokenStats) (s : state) : state :=
  State (currentView s) (currentMode s) (sessionId s) (sessionActive s) (personas s)
        (workers s) (state_config s) t (candidates s) (votingResult s).

(** [a || b] on counts. *)
Definition or_count (a b : Z) : Z := if a =? 0 then b else a.

(** [source === 'synthesizer' || source === 'synth'] *)
Definition is_synth (source : string) : bool :=
  String.eqb source "synthesizer" || String.eqb source "synth".

(** [updateTokenStats(tokenData, source = 'worker', contextLimit = null)];
    [None] is a missing [tokenData], [contextLimit] [0] a missing limit.
    The display refresh is left to the page. *)
Definition updateTokenStats (data : option tokenData) (source : string)
    (contextLimit : Z) (w : world) : world :=
  match data with
  | None => w
  | Some d =>
      with_app (λ s,
        let t := state_tokenStats s in
        let input := if input_tokens d =? 0 then inputTokens t
                     else inputTokens t + input_tokens d in
        let output := if output_tokens d =? 0 then outputTokens t
                      else outputTokens t + output_tokens d in
        let total := if total_tokens d =? 0 then input + output
                     else totalTokens t + total_tokens d in
        let effectiveContextLimit := or_count contextLimit (context_limit d) in
        let synthLimit :=
          if negb (effectiveContextLimit =? 0) && is_synth source
          then effectiveContextLimit else synthContextLimit t in
        let workerLimit :=
          if negb (effectiveContextLimit =? 0) && negb (is_synth source)
          then effectiveContextLimit else workerContextLimit t in
        let contextUsed := or_count (context_used d) (or_count (total_tokens d) 0) in
        set_tokenStats
          (TokenStats total input output (callCount t + 1) workerLimit synthLimit
             (if is_synth source then lastWorkerContextUsed t else contextUsed)
             (if is_synth source then contextUsed else lastSynthContextUsed t)) s) w
  end.

(** [resetTokenStats()] *)
Definition resetTokenStats (w : world) : world :=
  with_app (λ s,
    let t := state_tokenStats s in
    set_tokenStats
      (TokenStats 0 0 0 0 (workerContextLimit t) (synthContextLimit t) 0 0) s) w.

(** [state.pipelineSettings], which the settings view stores and
    [startSession] reads. *)
Record settings : Type := Settings {
  settings_worker_count : number;
  refinement_rounds : number;
  argument_rounds : number;
  collaboration_rounds : number;
  axiom_rounds : number;
  worker_max_tokens : number;
  synth_max_tokens : number;
  worker_context_window : number;
  synth_context_window : number;
  persona_assignments : gmap string string
}.

(** [String(document.getElementById(id)?.value)]: what [parseInt] sees. *)
Definition control_text (id : string) (w : world) : string :=
  if has_element id w then default "" (value (page w) !! id) else "undefined".

(** [parseInt(document.getElementById(id)?.value) || fallback] *)
Definition control_number (id : string) (fallback : Z) (w : world) : number :=
  or_else (parseInt (control_text id w)) (Num fallback).

(** The loop of [updatePipelineSettings] over the persona selectors of
    workers [1] to [workerCount]. *)
Definition selected_personas (workerCount : number) (w : world) : gmap string string :=
  fold_left (λ acc i,
      let n := number_to_string (Num (Z.of_nat i)) in
      let id := "setting-worker-" ++ n ++ "-persona" in
      let chosen := default "" (value (page w) !! id) in
      if has_element id w && negb (String.eqb chosen "custom")
      then <["worker_" ++ n := chosen]> acc
      else acc)
    (seq 1 (iterations workerCount)) ∅.

(** The count behind a number that is known to be one. *)
Definition count_of (n : number) : Z :=
  match n with
  | Num z => z
  | NaN => 0
  end.

Definition set_context_limits (workerLimit synthLimit : Z) (t : tokenStats) : tokenStats :=
  TokenStats (totalTokens t) (inputTokens t) (outputTokens t) (callCount t)
             workerLimit synthLimit (lastWorkerContextUsed t) (lastSynthContextUsed t).

(** [updatePipelineSettings()]: the settings read off the page, which
    the function stores as [state.pipelineSettings]; the context limits
    go into the token statistics and the round counts are copied to the
    chat view's inputs. *)
Definition updatePipelineSettings (w : world) : settings * world :=
  let workerCount := control_number "setting-worker-count" 2 w in
  let st :=
    Settings workerCount
      (control_number "setting-refinement-rounds" 3 w)
      (control_number "setting-argument-rounds" 1 w)
      (control_number "setting-collaboration-rounds" 1 w)
      (control_number "setting-axiom-rounds" 1 w)
      (control_number "setting-worker-tokens" 400 w)
      (control_number "setting-synth-tokens" 300 w)
      (control_number "setting-worker-context" 2048 w)
      (control_number "setting-synth-context" 4096 w)
      (selected_personas workerCount w) in
  let w := with_app (λ s,
             set_tokenStats
               (set_context_limits (count_of (worker_context_window st))
                                   (count_of (synth_context_window st))
                                   (state_tokenStats s)) s) w in
  let w := write_value "debate-rounds" (number_to_string (refinement_rounds st)) w in
  let w := write_value "argument-rounds" (number_to_string (argument_rounds st)) w in
  (st, w).

(** ** [session.js]: starting a session and diversifying *)

(** [s.trim()] *)
Fixpoint trim_end (s : string) : string :=
  match s with
  | EmptyString => EmptyString
  | String c rest =>
      let r := trim_end rest in
      if is_white_space c && String.eqb r "" then EmptyString else String c r
  end.

Definition trim (s : string) : string := trim_end (trim_start s).

(** What [POST /api/session/start] answers. *)
Record sessionCreated : Type := SessionCreated {
  session_id : string;
  created_worker_count : number
}.

(** The persona ids bound to the workers of [state.workers]. *)
Definition worker_personas (ws : list worker) : gmap string string :=
  fold_left (λ acc k,
      match persona_id (worker_persona k) with
      | Some p => if String.eqb p "" then acc else <[worker_id k := p]> acc
      | None => acc
      end) ws ∅.

(** [settings?.field || fallback] *)
Definition setting_or (ps : option settings) (field : settings → number)
    (fallback : number) : number :=
  match ps with
  | Some st => or_else (field st) fallback
  | None => fallback
  end.

(** The object [startSession] posts.  [personaAssignments] are the
    workers' personas, which the settings override; [debateRounds] and
    [argumentRounds] are the chat view's inputs. *)
Definition start_body (prompt : string) (personaAssignments : gmap string string)
    (ps : option settings) (debateRounds argumentRounds : number) (s : state) : body :=
  [ ("prompt", VStr prompt);
    ("personas",
     VTexts (match ps with
             | Some st => persona_assignments st ∪ personaAssignments
             | None => personaAssignments
             end));
    ("worker_count",
     VNum (setting_or ps settings_worker_count
             (or_else (Num (Z.of_nat (length (workers s)))) (Num 2))));
    ("debate_rounds", VNum (setting_or ps refinement_rounds debateRounds));
    ("argument_rounds", VNum (setting_or ps argument_rounds argumentRounds));
    ("collaboration_rounds", VNum (setting_or ps collaboration_rounds (Num 1)));
    ("axiom_rounds", VNum (setting_or ps axiom_rounds (Num 1)));
    ("worker_max_tokens", VNum (setting_or ps worker_max_tokens (Num 400)));
    ("synth_max_tokens", VNum (setting_or ps synth_max_tokens (Num 300)));
    ("worker_context_window", VNum (setting_or ps worker_context_window (Num 2048)));
    ("synth_context_window", VNum (setting_or ps synth_context_window (Num 4096))) ].

(** The [try] block of [startSession] once the start call has
    answered with [created]. *)
Definition session_started (ps : option settings) (created : sessionCreated)
    (w : world) : eventSource * world :=
  let w := with_app (set_sessionId (Some (session_id created))) w in
  let workerCountLog :=
    or_else (created_worker_count created)
      (setting_or ps settings_worker_count
         (Num (Z.of_nat (length (workers (app w)))))) in
  let w := appendLog "system" None None
             ("Session created: " ++ session_id created ++ " with " ++
              number_to_string workerCountLog ++ " workers") "info" w in
  (* Mark session as active *)
  let w := setSessionActive true (Some (session_id created)) w in
  (* Show progress *)
  let w := write_value "progress-text" "Starting session..." w in
  (* Enable diversify button *)
  let w := write_disabled "btn-diversify" false w in
  (* Reset worker outputs *)
  let w := fold_left (λ w k, write_value ("output-" ++ worker_id k) "Waiting..." w)
                     (workers (app w)) w in
  (* Run pipeline with SSE *)
  connect run w.

(** [startSession()].  [ps] is [state.pipelineSettings], [response] the
    server's answer to the start call, [None] when it fails.  On success
    the run stream is returned open. *)
Definition startSession (ps : option settings) (response : option sessionCreated)
    (w : world) : option eventSource * world :=
  let prompt := trim (default "" (value (page w) !! "prompt-input")) in
  let debateRounds := control_number "debate-rounds" 2 w in
  let argumentRounds := control_number "argument-rounds" 1 w in
  if String.eqb prompt "" then (None, emit (Alert "Please enter a prompt") w)
  else
    (* Build persona assignments *)
    let personaAssignments := worker_personas (workers (app w)) in
    (* Clear previous log and initialize chat timeline *)
    let w := updateWorkerRoster (clearLog w) in
    let w := appendLog "system" None None
               ("Starting new session with " ++
                number_to_string (Num (Z.of_nat (length (workers (app w))))) ++
                " workers, " ++ number_to_string debateRounds ++ " debate rounds, " ++
                number_to_string argumentRounds ++ " argument rounds") "info" w in
    let w := emit (Fetch "POST" "/api/session/start"
                     (start_body prompt personaAssignments ps debateRounds
                                 argumentRounds (app w))) w in
    match response with
    | Some created =>
        let '(es, w) := session_started ps created w in
        (Some es, w)
    | None =>
        (None,
         emit (Alert "Failed to start session: ")
           (appendLog "system" None None "Error: " "error"
             (emit (ConsoleError "Failed to start session:") w)))
    end.

(** [diversifyWorkers()], up to the open stream. *)
Definition diversifyWorkers (w : world) : option eventSource * world :=
  if has_session (app w) then
    let w := appendLog "system" None None
               "Triggering diversify action - workers will see each other's responses"
               "info" w in
    let w := write_disabled "btn-diversify" true w in
    let '(es, w) := connect diversify w in
    (Some es, w)
  else (None, emit (Alert "No active session") w).

(** ** [voting.js]: the finalize stream and the final feedback *)

Record finalizeEvent : Type := FinalizeEvent {
  finalize_type : string;
  finalize_stage : option string;
  finalize_output : string;      (* [data.output]; empty when absent *)
  finalize_message : string
}.

(** The promise [runFinalizeStream] returns. *)
Inductive settled : Type :=
  | Pending
  | Resolved
  | Rejected (message : string).

(** The [EventSource] of [runFinalizeStream] with the variables its
    handlers close over. *)
Record finalizeStream : Type := FinalizeStream {
  finalize_readyState : readyState;
  finalOutput : string;          (* empty for [null] *)
  finalize_settled : settled
}.

(** [showFinalizeProgress(stage)]: the progress markup is not kept. *)
Definition showFinalizeProgress (stage : option string) (w : world) : world :=
  if has_element "final-content" w then showView "final" w else w.

(** [showFinalOutput(result)]: the markup it builds is not kept; it
    ends by switching to the final view. *)
Definition showFinalOutput (w : world) : world := showView "final" w.

(** [submitFinalFeedback(feedback)]; [ok] tells whether the POST
    succeeded.  A failure is logged to the console and swallowed. *)
Definition submitFinalFeedback (feedback : string) (ok : bool) (w : world) : world :=
  let w := emit (Fetch "POST" (feedback_url (app w) "final-feedback")
                       [("feedback", VStr feedback)]) w in
  if ok then showFinalOutput w
  else emit (ConsoleError "Failed to submit final feedback:") w.

Definition finalize_url (s : state) : string :=
  "/api/session/" ++ sessionId_text s ++ "/finalize".

(** [eventSource.onmessage] of [runFinalizeStream].  Axiom bookkeeping
    is display only.  A rejection lands in the [catch] of [submitVotes]. *)
Definition finalize_onmessage (e : finalizeEvent) (c : finalizeStream * world)
    : finalizeStream * world :=
  let '(fs, w) := c in
  match finalize_readyState fs with
  | CLOSED => c
  | OPEN =>
      let ty := finalize_type e in
      if String.eqb ty "stage_start" then (fs, showFinalizeProgress (finalize_stage e) w)
      else if String.eqb ty "axiom_extracted" then (fs, w)
      else if String.eqb ty "stage_complete" &&
              bool_decide (finalize_stage e = Some "axiom_analysis") then (fs, w)
      else if String.eqb ty "final_output" then
        (FinalizeStream OPEN (finalize_output e) (finalize_settled fs), w)
      else if String.eqb ty "error" then
        let w := emit (ConsoleError "Finalize error:") w in
        let w := emit (CloseEventSource (finalize_url (app w))) w in
        let w := emit (ConsoleError "Failed to submit votes:") w in
        (FinalizeStream CLOSED (finalOutput fs) (Rejected (finalize_message e)),
         emit (Alert ("Failed to submit votes: " ++ finalize_message e)) w)
      else (fs, w)
  end.

(** [eventSource.onerror] of [runFinalizeStream]; [ok] is the outcome of
    the final-feedback call it may make. *)
Definition finalize_onerror (ok : bool) (c : finalizeStream * world)
    : finalizeStream * world :=
  let '(fs, w) := c in
  match finalize_readyState fs with
  | CLOSED => c
  | OPEN =>
      let w := emit (CloseEventSource (finalize_url (app w))) w in
      (FinalizeStream CLOSED (finalOutput fs) Resolved,
       if String.eqb (finalOutput fs) ""
       then (* Try submitting final feedback anyway to complete *)
            submitFinalFeedback "" ok w
       else (* If we have a final output, show it *)
            showFinalOutput w)
  end.

Definition finalize_messages (es : list finalizeEvent) (c : finalizeStream * world)
    : finalizeStream * world :=
  fold_left (λ c e, finalize_onmessage e c) es c.

(** The stream as [submitVotes] leaves it. *)
Definition finalize_connect (w : world) : finalizeStream * world :=
  (FinalizeStream OPEN "" Pending, w).

(** [submitFinalFeedbackUI()] *)
Definition submitFinalFeedbackUI (ok : bool) (w : world) : world :=
  let feedback :=
    if has_element "final-feedback-input" w
    then trim (default "" (value (page w) !! "final-feedback-input"))
    else "" in
  let w := submitFinalFeedback feedback ok w in
  let w := emit (Alert "Final feedback submitted! Council session complete.") w in
  (* Disable the button *)
  write_value "btn-submit-final-feedback" "Feedback Submitted"
    (write_disabled "btn-submit-final-feedback" true w).

(** ** Derived notions for the properties below *)

(** The log of [w'] continues the log of [w]. *)
Definition log_extends (w w' : world) : Prop :=
  logEntries (session w) `prefix_of` logEntries (session w').

(** What no pipeline event changes: the session's identity and the
    elements of the page; and the log only grows. *)
Definition passive (w w' : world) : Prop :=
  sessionId (app w') = sessionId (app w) ∧
  sessionActive (app w') = sessionActive (app w) ∧
  element_ids (page w') = element_ids (page w) ∧
  log_extends w w'.

(** The counters add up. *)
Definition tokens_add_up (t : tokenStats) : Prop :=
  totalTokens t = inputTokens t + outputTokens t.

(** An event's counts are consistent: no total, or the total of the two
    counts. *)
Definition consistent (d : tokenData) : Prop :=
  total_tokens d = 0 ∨ total_tokens d = input_tokens d + output_tokens d.

(** A count within the range of the memory mode. *)
Definition in_worker_range (s : state) (n : number) : Prop :=
  ∃ z, n = Num z ∧ 2 ≤ z ∧ z ≤ (if String.eqb (currentMode s) "32GB" then 4 else 3).

(** A run of [updateTokenStats] calls, oldest first: the counts, the
    source and the context limit of each. *)
Definition token_updates (us : list (tokenData * string * Z)) (w : world) : world :=
  fold_left (λ w u, updateTokenStats (Some u.1.1) u.1.2 u.2 w) us w.

(** Nothing reached the server between [w] and [w'], and the page has
    kept its elements. *)
Definition silent (w w' : world) : Prop :=
  element_ids (page w') = element_ids (page w) ∧
  requests (trace w') = requests (trace w).


(** * Properties *)

(** ** Ranked voting: [setVote] *)

Section SetVote.

Implicit Types (vs : gmap string Z) (c : string) (r : Z).

Lemma lookup_clear_rank c r vs c' :
  clear_rank c r vs !! c' =
  (λ r', if bool_decide (c' ≠ c) && (r' =? r) then 0 else r') <$> vs !! c'.
Proof.
  unfold clear_rank. rewrite map_lookup_imap.
  by destruct (vs !! c').
Qed.

Lemma setVote_votes_self c r vs : setVote_votes c r vs !! c = Some r.
Proof. unfold setVote_votes. apply lookup_insert_eq. Qed.

(** What a candidate other than the one voted on holds afterwards. *)
Lemma setVote_votes_other c r vs c' :
  c' ≠ c →
  setVote_votes c r vs !! c' =
  (λ r', if (0 <? r) && (r' =? r) then 0 else r') <$> vs !! c'.
Proof.
  intros Hne. unfold setVote_votes.
  rewrite lookup_insert_ne by done.
  destruct (0 <? r) eqn:Hr; simpl.
  - rewrite lookup_clear_rank. rewrite bool_decide_eq_true_2 by done. done.
  - by destruct (vs !! c').
Qed.

Lemma setVote_votes_holder c r vs c' :
  0 < r → c' ≠ c → setVote_votes c r vs !! c' ≠ Some r.
Proof.
  intros Hr Hne. rewrite setVote_votes_other by done.
  apply Z.ltb_lt in Hr as Hr'. rewrite Hr'. simpl.
  destruct (vs !! c') as [r'|]; simpl; [|done].
  destruct (r' =? r) eqn:E; intros [= ?]; lia.
Qed.

Lemma setVote_votes_unique c r vs :
  unique_ranks vs → unique_ranks (setVote_votes c r vs).
Proof.
  intros Hu c1 c2 q Hq H1 H2.
  destruct (decide (c1 = c)) as [->|N1], (decide (c2 = c)) as [->|N2]; [done|..].
  - rewrite setVote_votes_self in H1. injection H1 as <-.
    by apply setVote_votes_holder in H2.
  - rewrite setVote_votes_self in H2. injection H2 as <-.
    by apply setVote_votes_holder in H1.
  - rewrite setVote_votes_other in H1, H2 by done.
    destruct (vs !! c1) as [r1|] eqn:E1; simpl in H1; [|done].
    destruct (vs !! c2) as [r2|] eqn:E2; simpl in H2; [|done].
    destruct ((0 <? r) && (r1 =? r)); [injection H1; lia|].
    destruct ((0 <? r) && (r2 =? r)); [injection H2; lia|].
    injection H1 as ->. injection H2 as ->. by eapply Hu.
Qed.

Lemma votes_setVote c r w :
  votes (voting (setVote c r w)) = setVote_votes c r (votes (voting w)).
Proof.
  unfold setVote, updateSubmitButton, write_disabled.
  by destruct (has_element _ _).
Qed.

Lemma setVotes_snoc calls c r w :
  setVotes (calls ++ [(c, r)]) w = setVote c r (setVotes calls w).
Proof. unfold setVotes. by rewrite fold_left_app. Qed.

Lemma setVotes_unique calls w :
  unique_ranks (votes (voting w)) →
  unique_ranks (votes (voting (setVotes calls w))).
Proof.
  intros Hu. induction calls as [|[c r] calls IH] using rev_ind; [done|].
  rewrite setVotes_snoc, votes_setVote. by apply setVote_votes_unique.
Qed.

(** The voting view starts from an empty ballot. *)
Lemma votes_buildVotingUI cands w :
  votes (voting (buildVotingUI cands w)) = ∅.
Proof.
  unfold buildVotingUI, updateSubmitButton, write_value, write_disabled.
  repeat (destruct (has_element _ _) || destruct (no_candidates _)); done.
Qed.

Lemma unique_ranks_empty : unique_ranks ∅.
Proof. intros c1 c2 r _ H. by rewrite lookup_empty in H. Qed.

(** Every ballot that clicks can produce in a voting view is free of
    doubly held ranks. *)
Lemma setVotes_from_fresh_view calls cands w :
  unique_ranks (votes (voting (setVotes calls (buildVotingUI cands w)))).
Proof.
  apply setVotes_unique. rewrite votes_buildVotingUI. apply unique_ranks_empty.
Qed.

(** C8.  Whatever clicks came before, as long as the ballot started
    with no rank held twice (the voting view starts it empty), no rank
    above 0 is held by two candidates after any run of [setVote]
    calls; and a further call [setVote c r] leaves [c] holding [r],
    and for [r > 0] no other candidate holds [r] any more: whoever
    held it is back at 0 (skip). *)
Theorem setVote_rank_uniqueness (calls : list (string * Z)) (w : world) :
  unique_ranks (votes (voting w)) →
  unique_ranks (votes (voting (setVotes calls w))) ∧
  ∀ c r,
    let before := votes (voting (setVotes calls w)) in
    let after := votes (voting (setVote c r (setVotes calls w))) in
    unique_ranks after ∧
    after !! c = Some r ∧
    (0 < r → ∀ c', c' ≠ c →
       after !! c' ≠ Some r ∧ (before !! c' = Some r → after !! c' = Some 0)).
Proof.
  intros Hu. pose proof (setVotes_unique calls w Hu) as Hs.
  split; [done|]. intros c r before after. subst before after.
  rewrite votes_setVote. split; [by apply setVote_votes_unique|].
  split; [apply setVote_votes_self|].
  intros Hr c' Hne. split; [by apply setVote_votes_holder|].
  intros Hb. rewrite setVote_votes_other, Hb by done. simpl.
  apply Z.ltb_lt in Hr. by rewrite Hr, Z.eqb_refl.
Qed.

(** The theorem at work: in a fresh voting view, candidate [a] is
    ranked first, then [b] is ranked first. *)
Lemma setVote_rank_uniqueness_witness :
  let w := buildVotingUI None (initial_world ∅) in
  unique_ranks (votes (voting w)) ∧
  votes (voting (setVote "b" 1 (setVotes [("a", 1)] w))) !! "a" = Some 0.
Proof.
  intros w.
  assert (Hu : unique_ranks (votes (voting w))).
  { subst w. rewrite votes_buildVotingUI. apply unique_ranks_empty. }
  split; [exact Hu|].
  destruct (setVote_rank_uniqueness [("a", 1)] w Hu) as [_ H].
  destruct (H "b" 1) as (_ & _ & H3).
  apply H3; [lia | done |].
  subst w. vm_compute. reflexivity.
Defined.

End SetVote.

(** ** What the handlers leave alone *)

Section Frames.

Implicit Types (w : world) (id : string).

Lemma app_write_value id v w : app (write_value id v w) = app w.
Proof. unfold write_value. by destruct (has_element id w). Qed.

Lemma app_write_disabled id b w : app (write_disabled id b w) = app w.
Proof. unfold write_disabled. by destruct (has_element id w). Qed.

Lemma storage_write_value id v w :
  sessionStorage (write_value id v w) = sessionStorage w.
Proof. unfold write_value. by destruct (has_element id w). Qed.

Lemma storage_write_disabled id b w :
  sessionStorage (write_disabled id b w) = sessionStorage w.
Proof. unfold write_disabled. by destruct (has_element id w). Qed.

Lemma trace_write_value id v w : trace (write_value id v w) = trace w.
Proof. unfold write_value. by destruct (has_element id w). Qed.

Lemma trace_write_disabled id b w : trace (write_disabled id b w) = trace w.
Proof. unfold write_disabled. by destruct (has_element id w). Qed.

Lemma requests_emit e w :
  requests (trace (emit e w)) =
  (requests (trace w) ++ (if is_request e then [e] else []))%list.
Proof.
  unfold requests. simpl. rewrite filter_app. f_equal.
  destruct e; done.
Qed.

(** The session keys after [clearSessionState]. *)
Lemma clearSessionState_keys w :
  let st := sessionStorage (clearSessionState w) in
  st !! SESSION_ID = None ∧ st !! SESSION_ACTIVE = None ∧ st !! CURRENT_VIEW = None.
Proof.
  unfold clearSessionState, with_storage. cbn [sessionStorage].
  unfold SESSION_ID, SESSION_ACTIVE, CURRENT_VIEW. repeat split.
  - rewrite !lookup_delete_ne by done. apply lookup_delete_eq.
  - rewrite lookup_delete_ne by done. apply lookup_delete_eq.
  - apply lookup_delete_eq.
Qed.

(** Rebuilding the worker cards or the roster touches [state.workers]
    only. *)
Lemma initializeWorkerCards_frame w :
  let w' := initializeWorkerCards w in
  sessionId (app w') = sessionId (app w) ∧
  sessionActive (app w') = sessionActive (app w) ∧
  currentMode (app w') = currentMode (app w) ∧
  state_config (app w') = state_config (app w) ∧
  sessionStorage w' = sessionStorage w ∧ trace w' = trace w.
Proof. unfold initializeWorkerCards. by destruct (has_element _ w). Qed.

Lemma updateWorkerRoster_frame w :
  let w' := updateWorkerRoster w in
  sessionId (app w') = sessionId (app w) ∧
  sessionActive (app w') = sessionActive (app w) ∧
  sessionStorage w' = sessionStorage w ∧ trace w' = trace w.
Proof.
  unfold updateWorkerRoster.
  destruct (has_element _ w); [|done]. by destruct (workers (app w)).
Qed.

Lemma has_element_write_value id' id v w :
  has_element id' (write_value id v w) = has_element id' w.
Proof. unfold write_value. by destruct (has_element id w). Qed.

Lemma has_element_write_disabled id' id b w :
  has_element id' (write_disabled id b w) = has_element id' w.
Proof. unfold write_disabled. by destruct (has_element id w). Qed.

Lemma value_write_value_eq id v w :
  has_element id w = true → value (page (write_value id v w)) !! id = Some v.
Proof. unfold write_value. intros ->. apply lookup_insert_eq. Qed.

Lemma value_write_value_ne id' id v w :
  id ≠ id' → value (page (write_value id v w)) !! id' = value (page w) !! id'.
Proof.
  intros Hne. unfold write_value. destruct (has_element id w); [|done].
  by apply lookup_insert_ne.
Qed.

Lemma value_write_disabled id b w :
  value (page (write_disabled id b w)) = value (page w).
Proof. unfold write_disabled. by destruct (has_element id w). Qed.

Lemma disabled_write_disabled_eq id b w :
  has_element id w = true → disabled (page (write_disabled id b w)) !! id = Some b.
Proof. unfold write_disabled. intros ->. apply lookup_insert_eq. Qed.

Lemma updateModeUI_frame w :
  app (updateModeUI w) = app w ∧ trace (updateModeUI w) = trace w.
Proof.
  unfold updateModeUI. rewrite app_write_value.
  destruct (state_config (app w));
    by rewrite ?app_write_value, ?trace_write_value.
Qed.

End Frames.

(** ** Ending a council: [endCouncil] *)

Section EndCouncil.

Lemma session_cleared_ext w w' :
  sessionId (app w') = sessionId (app w) →
  sessionActive (app w') = sessionActive (app w) →
  sessionStorage w' = sessionStorage w →
  session_cleared w → session_cleared w'.
Proof. unfold session_cleared. intros -> -> ->. done. Qed.

Lemma showView_cleared v w : session_cleared w → session_cleared (showView v w).
Proof.
  intros (Hid & Hact & Hst). unfold showView.
  destruct (has_element _ w); [|done].
  unfold saveSessionState, has_session. simpl. rewrite Hid.
  pose proof (clearSessionState_keys (with_app (set_currentView v) w)) as (?&?&?).
  by repeat split.
Qed.

Lemma trace_showView v w : trace (showView v w) = trace w.
Proof.
  unfold showView, saveSessionState.
  destruct (has_element _ w); [|done]. by destruct (has_session _).
Qed.

(** C10.  [endCouncil(false)] returns [true] whatever the page looks
    like; afterwards [state.sessionId] is [null], [state.sessionActive]
    is [false], none of the three [sessionStorage] keys is set, and
    nothing was sent to the server: the trace of dialogs and requests
    is what it was. *)
Theorem endCouncil_without_confirm (confirmed sessionScript : bool) (w : world) :
  let result := endCouncil false confirmed sessionScript w in
  result.1 = true ∧
  sessionId (app result.2) = None ∧
  sessionActive (app result.2) = false ∧
  sessionStorage result.2 !! SESSION_ID = None ∧
  sessionStorage result.2 !! SESSION_ACTIVE = None ∧
  sessionStorage result.2 !! CURRENT_VIEW = None ∧
  trace result.2 = trace w ∧
  requests (trace result.2) = requests (trace w).
Proof.
  unfold endCouncil. simpl.
  set (w1 := clearSessionState _).
  assert (H1 : session_cleared w1).
  { pose proof (clearSessionState_keys
      (with_app (λ s, set_sessionActive false (set_sessionId None s)) w)) as (?&?&?).
    by repeat split. }
  assert (T1 : trace w1 = trace w) by done.
  set (w2 := initializeWorkerCards (updateSessionUI w1)).
  assert (H2 : session_cleared w2 ∧ trace w2 = trace w) .
  { subst w2. pose proof (initializeWorkerCards_frame (updateSessionUI w1)) as (?&?&?&?&?&Ht).
    split.
    - eapply session_cleared_ext; [done..|].
      unfold updateSessionUI.
      eapply session_cleared_ext; [| | |exact H1];
        by rewrite ?app_write_disabled, ?storage_write_disabled.
    - rewrite Ht. unfold updateSessionUI. by rewrite !trace_write_disabled. }
  destruct H2 as [H2 T2].
  set (w3 := if sessionScript then updateWorkerRoster (clearLog w2) else w2).
  assert (H3 : session_cleared w3 ∧ trace w3 = trace w).
  { subst w3. destruct sessionScript; [|done].
    pose proof (updateWorkerRoster_frame (clearLog w2)) as (?&?&?&Ht).
    split; [by eapply session_cleared_ext|by rewrite Ht]. }
  destruct H3 as [H3 T3].
  set (w4 := write_disabled "btn-diversify" true _).
  assert (H4 : session_cleared w4 ∧ trace w4 = trace w).
  { subst w4. split.
    - eapply session_cleared_ext; [| | |exact H3];
        by rewrite ?app_write_disabled, ?storage_write_disabled,
                   ?app_write_value, ?storage_write_value.
    - by rewrite !trace_write_disabled, trace_write_value. }
  destruct H4 as [H4 T4].
  set (w5 := if sessionScript then appendLog _ _ _ _ _ w4 else w4).
  assert (H5 : session_cleared w5 ∧ trace w5 = trace w).
  { subst w5. by destruct sessionScript. }
  destruct H5 as [H5 T5].
  pose proof (showView_cleared "session" w5 H5) as (?&?&?&?&?).
  rewrite trace_showView, T5. by repeat split.
Qed.

(** With the dialog shown and declined, nothing is ended. *)
Lemma endCouncil_declined sessionScript w :
  let result := endCouncil true false sessionScript w in
  result.1 = false ∧ app result.2 = app w ∧ sessionStorage result.2 = sessionStorage w.
Proof. done. Qed.

End EndCouncil.

(** ** Changing the memory mode: [setMode] *)

Section SetMode.

(** C9.  While a session is active, [setMode] changes nothing: the
    application state, [sessionStorage], the voting and session
    variables and the page are what they were, no request is issued,
    and the only thing that happens is the alert. *)
Theorem setMode_blocked_while_active (mode : string) (response : option config)
    (w : world) :
  sessionActive (app w) = true →
  let w' := setMode mode response w in
  app w' = app w ∧ currentMode (app w') = currentMode (app w) ∧
  state_config (app w') = state_config (app w) ∧
  sessionStorage w' = sessionStorage w ∧ voting w' = voting w ∧
  session w' = session w ∧ page w' = page w ∧
  requests (trace w') = requests (trace w) ∧
  ∃ message, trace w' = (trace w ++ [Alert message])%list.
Proof.
  intros Hact. unfold setMode. rewrite Hact. cbn zeta.
  rewrite requests_emit. cbn [is_request]. rewrite app_nil_r.
  repeat split; eauto.
Qed.

Lemma setMode_blocked_while_active_witness :
  let w := started_world ∅ "4f2a9c1e" in
  sessionActive (app w) = true ∧
  app (setMode "32GB" (Some (Config "32GB" (Num 3))) w) = app w.
Proof.
  intros w. split; [reflexivity|].
  apply (setMode_blocked_while_active "32GB" (Some (Config "32GB" (Num 3))) w).
  reflexivity.
Defined.

(** Without an active session the request does go out, and its answer
    becomes the mode and the configuration. *)
Lemma setMode_when_idle mode result w :
  sessionActive (app w) = false →
  let w' := setMode mode (Some result) w in
  currentMode (app w') = config_mode result ∧
  state_config (app w') = Some result ∧
  requests (trace w') =
    (requests (trace w) ++ [Fetch "POST" "/api/config/mode" [("mode", VStr mode)]])%list.
Proof.
  intros Hact. unfold setMode. rewrite Hact. cbn zeta.
  match goal with |- context [initializeWorkerCards ?x] =>
    pose proof (initializeWorkerCards_frame x) as (_ & _ & Hm & Hc & _ & Ht) end.
  rewrite Hm, Hc, Ht.
  match goal with |- context [updateModeUI ?x] =>
    pose proof (updateModeUI_frame x) as [-> ->] end.
  unfold requests. cbn [app with_app emit trace]. by rewrite filter_app.
Qed.

End SetMode.

(** ** Submitting the ballot: [submitVotes] *)

Section SubmitVotes.

(** Without candidates [submitVotes] stops at the alert. *)
Lemma submitVotes_no_candidates response w :
  no_candidates (candidates (app w)) = true →
  submitVotes response w =
  emit (Alert "No candidates available to vote on. The synthesis may have failed.") w.
Proof. intros H. unfold submitVotes. by rewrite H. Qed.

(** With candidates the ballot is posted. *)
Lemma submitVotes_with_candidates response w :
  no_candidates (candidates (app w)) = false →
  posts (trace (submitVotes response w)) =
  (posts (trace w) ++
    [(("/api/session/" ++ sessionId_text (app w) ++ "/vote")%string,
      submitData (voting w))])%list.
Proof.
  intros H. unfold submitVotes. rewrite H. cbn zeta. unfold posts.
  destruct response; cbn [trace emit with_app];
    rewrite ?omap_app; cbn [omap list_omap]; by rewrite ?app_nil_r.
Qed.

(** Without candidates, the voting view switches the submit button on
    and labels it for feedback. *)
Lemma buildVotingUI_feedback_only cands w :
  no_candidates cands = true →
  "btn-submit-votes" ∈ element_ids (page w) →
  let w' := buildVotingUI cands w in
  disabled (page w') !! "btn-submit-votes" = Some false ∧
  value (page w') !! "btn-submit-votes" = Some "Submit Feedback".
Proof.
  intros Hn Hin. unfold buildVotingUI. rewrite Hn. cbn zeta.
  assert (Hel : has_element "btn-submit-votes" w = true)
    by by apply bool_decide_eq_true_2.
  unfold updateSubmitButton, canSubmit. rewrite !orb_true_r. cbn [negb].
  split.
  - apply disabled_write_disabled_eq.
    by rewrite !has_element_write_value, has_element_write_disabled.
  - rewrite value_write_disabled, !value_write_value_ne by done.
    apply value_write_value_eq. by rewrite has_element_write_disabled.
Qed.

(** C1.  A session reaches the voting checkpoint with an empty
    candidate list.  The voting view comes up with the submit button
    enabled and labelled "Submit Feedback"; yet pressing it posts
    nothing, whatever the server would have answered: the only effect
    is the alert, no vote is recorded and no finalize stream is
    opened. *)
Theorem submitVotes_rejects_empty_candidate_set :
  let w := (deliver [Message (voting_event [])]
                    (connect run (started_world voting_page "4f2a9c1e"))).2 in
  candidates (app w) = Some [] ∧
  currentView (app w) = "voting" ∧
  disabled (page w) !! "btn-submit-votes" = Some false ∧
  value (page w) !! "btn-submit-votes" = Some "Submit Feedback" ∧
  ∀ response,
    let w' := submitVotes response w in
    posts (trace w') = [] ∧
    requests (trace w') = requests (trace w) ∧
    votingResult (app w') = None ∧
    last (trace w') =
      Some (Alert "No candidates available to vote on. The synthesis may have failed.").
Proof.
  intros w.
  assert (Hc : candidates (app w) = Some []) by (subst w; vm_compute; reflexivity).
  split; [exact Hc|].
  split; [subst w; vm_compute; reflexivity|].
  split; [subst w; vm_compute; reflexivity|].
  split; [subst w; vm_compute; reflexivity|].
  intros response w'. subst w'.
  rewrite submitVotes_no_candidates by (rewrite Hc; reflexivity).
  rewrite requests_emit. cbn [is_request]. rewrite app_nil_r.
  cbn [trace emit app votingResult]. rewrite last_snoc.
  repeat split; subst w; vm_compute; reflexivity.
Qed.

End SubmitVotes.

(** ** The event streams *)

Section Streams.

Implicit Types (es : eventSource) (w : world) (e : event) (ep : endpoint).


(** A closed stream hands nothing to its handlers. *)
Lemma deliver_closed ds (c : eventSource * world) :
  source_readyState c.1 = CLOSED → deliver ds c = c.
Proof.
  intros Hc. induction ds as [|d ds IH]; [done|].
  unfold deliver in *. cbn [fold_left].
  replace (deliver_one c d) with c; [exact IH|].
  destruct c as [es w], d; cbn in *; by rewrite Hc.
Qed.








Lemma deliver_app ds1 ds2 (c : eventSource * world) :
  deliver (ds1 ++ ds2) c = deliver ds2 (deliver ds1 c).
Proof. unfold deliver. apply fold_left_app. Qed.







End Streams.

(** ** Round, collaboration and argument feedback *)

Section Feedback.

Implicit Types (w : world) (fb : gmap string string).

Lemma posts_emit e w :
  posts (trace (emit e w)) = (posts (trace w) ++ posts [e])%list.
Proof. unfold posts. cbn [trace emit]. apply omap_app. Qed.

Lemma trace_appendLog stage wid persona content type w :
  trace (appendLog stage wid persona content type w) = trace w.
Proof. done. Qed.

Lemma posts_open_stream ep w : posts (trace (open_stream ep w)) = posts (trace w).
Proof. unfold open_stream. rewrite posts_emit. cbn. apply app_nil_r. Qed.

(** C5.  Each of the three feedback submissions posts one request, to
    its own endpoint, whose body holds exactly three fields: [round],
    the current round number; [worker_feedback], the per-worker
    feedback map collected in the modal (any map, the empty one
    included); and one boolean skip flag, [skip_to_synthesis] for
    refinement and collaboration rounds, [skip_to_voting] for argument
    rounds.  This is so whether or not the server accepts the call. *)
Theorem feedback_request_bodies fb (skip ok : bool) (w : world) :
  let round := VNum (currentRound (session w)) in
  posts (trace (submitRoundFeedback skip ok
                  (with_session (set_roundWorkerFeedback fb) w))) =
    (posts (trace w) ++
     [ (feedback_url (app w) "round-feedback",
        [ ("round", round); ("worker_feedback", VTexts fb);
          ("skip_to_synthesis", VBool skip) ]) ])%list ∧
  posts (trace (submitCollabFeedback skip ok
                  (with_session (set_collabWorkerFeedback fb) w))) =
    (posts (trace w) ++
     [ (feedback_url (app w) "collab-feedback",
        [ ("round", round); ("worker_feedback", VTexts fb);
          ("skip_to_synthesis", VBool skip) ]) ])%list ∧
  posts (trace (submitArgumentFeedback skip ok
                  (with_session (set_argumentWorkerFeedback fb) w))) =
    (posts (trace w) ++
     [ (feedback_url (app w) "argument-feedback",
        [ ("round", round); ("worker_feedback", VTexts fb);
          ("skip_to_voting", VBool skip) ]) ])%list.
Proof.
  intros round. subst round.
  unfold submitRoundFeedback, submitCollabFeedback, submitCollabFeedback_send,
    submitArgumentFeedback.
  cbn zeta. repeat split.
  - destruct ok.
    + rewrite posts_open_stream, trace_appendLog.
      destruct (non_empty _); rewrite ?trace_appendLog, posts_emit; done.
    + rewrite posts_emit, trace_appendLog, !posts_emit. cbn. by rewrite !app_nil_r.
  - destruct ok.
    + rewrite posts_open_stream, trace_appendLog, posts_emit. done.
    + rewrite !posts_emit. cbn. by rewrite !app_nil_r.
  - destruct ok.
    + rewrite posts_open_stream, trace_appendLog.
      destruct (non_empty _); rewrite ?trace_appendLog, posts_emit; done.
    + rewrite posts_emit, trace_appendLog, !posts_emit. cbn. by rewrite !app_nil_r.
Qed.

(** The body with nothing typed into the modal. *)
Example round_feedback_empty_map :
  posts (trace (submitRoundFeedback true true
           (deliver_one (connect run (started_world ∅ "4f2a9c1e"))
              (Message (Event "awaiting_round_feedback" None None None NoOutput ""
                              (Num 1) (Num 3) None None None false []))).2)) =
  [ ("/api/session/4f2a9c1e/round-feedback",
     [ ("round", VNum (Num 1)); ("worker_feedback", VTexts ∅);
       ("skip_to_synthesis", VBool true) ]) ].
Proof. vm_compute. reflexivity. Qed.

End Feedback.

(** ** The worker-count control *)

Section WorkerCount.

Example parseInt_digits : parseInt "3" = Num 3.
Proof. reflexivity. Qed.
Example parseInt_leading_space_and_suffix : parseInt "  12px" = Num 12.
Proof. reflexivity. Qed.
Example parseInt_negative : parseInt "-7" = Num (-7).
Proof. reflexivity. Qed.
Example parseInt_hex : parseInt "0x1f" = Num 31.
Proof. reflexivity. Qed.
Example parseInt_fraction : parseInt "3.9" = Num 3.
Proof. reflexivity. Qed.
Example parseInt_empty : parseInt "" = NaN.
Proof. reflexivity. Qed.
Example parseInt_letters : parseInt "abc" = NaN.
Proof. reflexivity. Qed.
Example number_to_string_4 : number_to_string (Num 104) = "104".
Proof. reflexivity. Qed.

(** Numeric text is clamped into the mode's range. *)
Lemma clampedCount_numeric s entered z :
  parseInt entered = Num z →
  ∃ n, clampedCount s entered = Num n ∧ 2 ≤ n ∧
       n ≤ (if String.eqb (currentMode s) "32GB" then 4 else 3).
Proof.
  intros Hp. unfold clampedCount, maxWorkers. rewrite Hp. cbn [Math_max Math_min].
  eexists. split; [done|]. destruct (String.eqb _ _); lia.
Qed.

(** Text without a leading number is not clamped at all. *)
Lemma clampedCount_non_numeric s entered :
  parseInt entered = NaN → clampedCount s entered = NaN.
Proof. intros Hp. unfold clampedCount. by rewrite Hp. Qed.


(** C6 fails on the code.  The worker-count field is emptied while
    the configuration holds 2 workers in 16GB mode: the [change]
    listener computes [NaN], writes it back to the field and stores it
    as the configuration's worker count. *)
Theorem workerCount_change_blank_input :
  let w := World (set_config (Some (Config "16GB" (Num 2))) initial_state)
                 ∅ initial_votingState initial_sessionVars
                 (Document {[ "setting-worker-count" ]} ∅ ∅) [] in
  let w' := workerCount_change "" w in
  clampedCount (app w) "" = NaN ∧
  state_config (app w') = Some (Config "16GB" NaN) ∧
  value (page w') !! "setting-worker-count" = Some "NaN".
Proof. vm_compute. repeat split; reflexivity. Qed.

(** The add-worker button reads the same field with a fallback to 2,
    and stays within the mode's range from there. *)
Lemma addWorker_click_blank_input :
  let w := World (set_config (Some (Config "16GB" (Num 2))) initial_state)
                 ∅ initial_votingState initial_sessionVars
                 (Document {[ "setting-worker-count" ]} ∅ ∅) [] in
  state_config (app (addWorker_click (workerCount_change "" w))) =
  Some (Config "16GB" (Num 3)).
Proof. vm_compute. reflexivity. Qed.

End WorkerCount.

(** ** Vote aggregation *)

Section Aggregation.

Import Aggregator.
Local Open Scope Q_scope.

Lemma combined_score_weights machine human :
  combined_score machine human == machine * 0.4 + human * 0.6.
Proof. unfold combined_score. reflexivity. Qed.

Example human_score_first_of_three : human_score 3 1 == 10.
Proof. reflexivity. Qed.
Example human_score_second_of_three : Qred (human_score 3 2) = 20 # 3.
Proof. reflexivity. Qed.
Example human_score_third_of_three : Qred (human_score 3 3) = 10 # 3.
Proof. reflexivity. Qed.
Example human_score_skip : human_score 3 0 == 0.
Proof. reflexivity. Qed.

(** C2.  Every candidate's combined score in the aggregate is its
    machine score × 0.4 plus its human score × 0.6, as rationals; and
    machine score 8 with rank 1 of 3 comes to 9.2, that is 46/5. *)
Theorem combined_score_exact (k : positive) (machine : list (string * Q))
    (ranks : gmap string Z) (i : nat) (cid : string) (m : Q) :
  machine !! i = Some (cid, m) →
  (∃ c, aggregate k machine ranks !! i = Some (cid, c) ∧
        c == m * 0.4 + human_score k (default 0%Z (ranks !! cid)) * 0.6) ∧
  combined_score 8 (human_score 3 1) == 9.2 ∧
  Qred (combined_score 8 (human_score 3 1)) = 46 # 5.
Proof.
  intros Hi. split; [|split; reflexivity].
  eexists. split; [|apply combined_score_weights].
  unfold aggregate. rewrite list_lookup_fmap, Hi. reflexivity.
Qed.

Lemma combined_score_exact_witness :
  let machine := [("candidate_1", 8); ("candidate_2", 6.5)] in
  let ranks : gmap string Z := {[ "candidate_1" := 1%Z; "candidate_2" := 0%Z ]} in
  machine !! 0%nat = Some ("candidate_1", 8) ∧
  ∃ c, aggregate 3 machine ranks !! 0%nat = Some ("candidate_1", c) ∧ c == 9.2.
Proof.
  intros machine ranks. split; [reflexivity|].
  destruct (combined_score_exact 3 machine ranks 0 "candidate_1" 8 eq_refl)
    as [(c & Hc & Heq) _].
  exists c. split; [exact Hc|]. rewrite Heq. reflexivity.
Defined.

End Aggregation.

(** ** Persona swaps *)

Section Swap.

Import PersonaBinding.

Implicit Types (s : Session) (slot : string).

Lemma pending_spec s slot :
  slot ∈ pending s ↔ ∃ sl, slots s !! slot = Some sl ∧ slot_done sl = false.
Proof.
  unfold pending. rewrite elem_of_dom. unfold is_Some.
  setoid_rewrite map_lookup_filter_Some. naive_solver.
Qed.

Lemma run_workers_lookup infer s slot :
  slots (run_workers infer s) !! slot =
  execute infer (current_stage s) slot <$> slots s !! slot.
Proof.
  unfold run_workers. cbn [slots]. rewrite map_lookup_imap.
  by destruct (slots s !! slot).
Qed.

(** C7.  A swap with mode [restart] on a slot of a session that admits
    swaps: the slot's output history is empty afterwards and the slot
    is bound to the new persona; every other slot is exactly what it
    was; the slot is due at the next run, and another slot is due
    after the swap exactly if it was due before.  The next run gives
    the slot one fresh output for the current stage, made with the new
    persona, and leaves alone every other slot that had already
    executed the stage. *)
Theorem swap_restart_resets_one_slot (infer : string → string → string → string)
    slot (p2 : string) s s' :
  swap slot p2 restart s = Some s' →
  slots s' !! slot =
    Some {| slot_persona := p2; slot_history := []; slot_done := false |} ∧
  (∀ other, other ≠ slot → slots s' !! other = slots s !! other) ∧
  slot ∈ pending s' ∧
  (∀ other, other ≠ slot → other ∈ pending s' ↔ other ∈ pending s) ∧
  slots (run_workers infer s') !! slot =
    Some {| slot_persona := p2;
            slot_history :=
              [ {| output_stage := current_stage s; output_persona := p2;
                   output_text := infer slot p2 (current_stage s);
                   output_hidden := false |} ];
            slot_done := true |} ∧
  (∀ other sl, other ≠ slot → slots s !! other = Some sl → slot_done sl = true →
     slots (run_workers infer s') !! other = Some sl) ∧
  length (log s') = S (length (log s)).
Proof.
  unfold swap. intros Hs.
  destruct (swap_legal (session_status s)); [|done].
  destruct (slots s !! slot) as [sl|] eqn:Hsl; [|done].
  cbn in Hs. injection Hs as <-. cbn [slots current_stage log swap_slot].
  assert (Hself : ∀ m : gmap string WorkerSlot, ∀ x, <[slot := x]> m !! slot = Some x)
    by (intros; apply lookup_insert_eq).
  repeat split.
  - apply Hself.
  - intros other Hne. by apply lookup_insert_ne.
  - apply pending_spec. eexists. split; [apply Hself|done].
  - rewrite !pending_spec. cbn [slots]. by rewrite lookup_insert_ne.
  - rewrite !pending_spec. cbn [slots]. by rewrite lookup_insert_ne.
  - rewrite run_workers_lookup. cbn [slots current_stage]. by rewrite Hself.
  - intros other sl' Hne Ho Hd. rewrite run_workers_lookup. cbn [slots current_stage].
    rewrite lookup_insert_ne, Ho by done. cbn. unfold execute. by rewrite Hd.
  - rewrite length_app. cbn. lia.
Qed.

(** What the client contributes to a swap: it posts the chosen action
    as it is and, when the server reports cleared state, replaces the
    output shown for that worker and for no other. *)
Lemma confirmSwap_restart wid persona result w other :
  has_session (app w) = true → wid ≠ "" → other ≠ wid →
  let w' := confirmSwap (Some wid) persona "restart" (Some result) w in
  posts (trace w') =
    (posts (trace w) ++
     [ (("/api/session/" ++ sessionId_text (app w) ++ "/swap-persona")%string,
        [ ("worker_id", VStr wid); ("persona_id", VStr persona);
          ("action", VStr "restart") ]) ])%list ∧
  value (page w') !! ("output-" ++ other) = value (page w) !! ("output-" ++ other) ∧
  app w' = app w.
Proof.
  intros Hs Hw Ho. unfold confirmSwap. rewrite Hs.
  apply String.eqb_neq in Hw. rewrite Hw. cbn [andb negb].
  assert (H1 : "persona-" ++ wid ≠ "output-" ++ other) by (cbn; intros [=]).
  assert (H2 : "output-" ++ wid ≠ "output-" ++ other).
  { cbn. intros Heq. injection Heq as Heq. by destruct Ho. }
  destruct (state_cleared result);
    rewrite ?trace_write_value, ?app_write_value, ?value_write_value_ne by done;
    rewrite posts_emit; done.
Qed.

Lemma swap_restart_resets_one_slot_witness :
  let draft p := {| output_stage := "worker_drafts"; output_persona := p;
                    output_text := "draft"; output_hidden := false |} in
  let done p := {| slot_persona := p; slot_history := [draft p]; slot_done := true |} in
  let s := {| session_status := awaiting_input; current_stage := "worker_drafts";
              slots := {[ "worker_1" := done "analyst"; "worker_2" := done "skeptic" ]};
              log := [] |} in
  ∃ s', swap "worker_1" "creative" restart s = Some s' ∧
        pending s' = {[ "worker_1" ]} ∧
        slots s' !! "worker_2" = Some (done "skeptic").
Proof.
  intros draft done s.
  set (s' := {| session_status := awaiting_input; current_stage := "worker_drafts";
                slots := <["worker_1" := swap_slot restart "creative" (done "analyst")]>
                           (slots s);
                log := [ {| log_stage := "worker_drafts"; log_agent := "worker_1";
                            log_persona := "creative";
                            log_content := "persona swap" |} ] |}).
  assert (Hs : swap "worker_1" "creative" restart s = Some s').
  { unfold swap. cbn [session_status s swap_legal slots].
    rewrite lookup_insert_eq. reflexivity. }
  exists s'. split; [exact Hs|].
  destruct (swap_restart_resets_one_slot (λ _ _ _, "redraft") "worker_1" "creative"
              s s' Hs) as (_ & Hother & Hin & Hiff & _).
  split.
  - apply set_eq. intros y. rewrite elem_of_singleton.
    destruct (decide (y = "worker_1")) as [->|Hne];
      [split; [reflexivity|intros _; exact Hin]|].
    rewrite (Hiff y Hne), pending_spec. split; [|intros Hy; destruct (Hne Hy)].
    intros (sl & Hl & Hd). exfalso. cbn [slots s] in Hl.
    destruct (decide (y = "worker_2")) as [->|Hne2].
    + rewrite lookup_insert_ne, lookup_singleton_eq in Hl by done.
      injection Hl as <-. done.
    + rewrite lookup_insert_ne, lookup_singleton_ne in Hl by done. done.
  - rewrite Hother by done. cbn [slots s].
    by rewrite lookup_insert_ne, lookup_singleton_eq.
Defined.

End Swap.

(** ** Keeping and restoring the session across reloads *)

Section Persistence.

Implicit Types (w : world).

Lemma has_session_inv s :
  has_session s = true → ∃ id, sessionId s = Some id ∧ id ≠ "".
Proof.
  unfold has_session. destruct (sessionId s) as [id|]; [|done].
  intros H. exists id. split; [done|].
  apply negb_true_iff, String.eqb_neq in H. done.
Qed.

Lemma saveSessionState_keys w id :
  sessionId (app w) = Some id → id ≠ "" →
  let st := sessionStorage (saveSessionState w) in
  st !! SESSION_ID = Some id ∧
  st !! SESSION_ACTIVE = Some (if sessionActive (app w) then "true" else "false") ∧
  st !! CURRENT_VIEW = Some (currentView (app w)).
Proof.
  intros Hid Hne. unfold saveSessionState, has_session. rewrite Hid.
  apply String.eqb_neq in Hne. rewrite Hne. cbn [negb with_storage sessionStorage].
  unfold sessionId_text. rewrite Hid. cbn [default].
  unfold SESSION_ID, SESSION_ACTIVE, CURRENT_VIEW. repeat split.
  - rewrite !lookup_insert_ne by done. apply lookup_insert_eq.
  - rewrite lookup_insert_ne by done. apply lookup_insert_eq.
  - apply lookup_insert_eq.
Qed.

(** X1.  Saving and loading are inverse on what identifies an active
    session: whatever [state] the reloaded page starts from, loading
    the storage that [saveSessionState] wrote for an active session
    brings back its id, its active flag and its view. *)
Theorem save_load_round_trip (w : world) (fresh : state) :
  has_session (app w) = true →
  sessionActive (app w) = true →
  currentView (app w) ≠ "" →
  let reloaded :=
    World fresh (sessionStorage (saveSessionState w)) (voting w) (session w) (page w) [] in
  (loadSessionState reloaded).1 = true ∧
  sessionId (app (loadSessionState reloaded).2) = sessionId (app w) ∧
  sessionActive (app (loadSessionState reloaded).2) = true ∧
  currentView (app (loadSessionState reloaded).2) = currentView (app w).
Proof.
  intros Hs Ha Hv reloaded.
  destruct (has_session_inv _ Hs) as (id & Hid & Hne).
  destruct (saveSessionState_keys w id Hid Hne) as (K1 & K2 & K3).
  rewrite Ha in K2.
  unfold loadSessionState. subst reloaded. cbn [sessionStorage].
  rewrite K1, K2, K3.
  apply String.eqb_neq in Hne, Hv. rewrite Hne, Hv.
  rewrite bool_decide_eq_true_2 by done. cbn. by rewrite Hid.
Qed.

Lemma save_load_round_trip_witness :
  let w := with_app (set_currentView "voting") (started_world ∅ "4f2a9c1e") in
  has_session (app w) = true ∧
  currentView (app (loadSessionState
    (World initial_state (sessionStorage (saveSessionState w))
           (voting w) (session w) (page w) [])).2) = "voting".
Proof.
  intros w. split; [reflexivity|].
  pose proof (save_load_round_trip w initial_state) as H.
  destruct H as (_ & _ & _ & H); [reflexivity|reflexivity|done|exact H].
Defined.

(** X2.  Only active sessions come back.  When [state.sessionActive] is
    false at the time the state is saved, with or without a session id,
    a reload restores nothing: [loadSessionState] answers [false] and
    leaves the fresh state as it is. *)
Theorem inactive_session_not_restored (w : world) (fresh : state) :
  sessionActive (app w) = false →
  let reloaded :=
    World fresh (sessionStorage (saveSessionState w)) (voting w) (session w) (page w) [] in
  loadSessionState reloaded = (false, reloaded).
Proof.
  intros Ha reloaded. unfold loadSessionState. subst reloaded. cbn [sessionStorage].
  destruct (has_session (app w)) eqn:Hs.
  - destruct (has_session_inv _ Hs) as (id & Hid & Hne).
    destruct (saveSessionState_keys w id Hid Hne) as (K1 & K2 & _).
    rewrite Ha in K2. rewrite K1, K2.
    rewrite bool_decide_eq_false_2 by done. by rewrite andb_false_r.
  - unfold saveSessionState. rewrite Hs.
    destruct (clearSessionState_keys w) as (K1 & _). by rewrite K1.
Qed.

Lemma inactive_session_not_restored_witness :
  let w := with_app (set_sessionId (Some "4f2a9c1e")) (initial_world ∅) in
  sessionActive (app w) = false ∧
  (loadSessionState
     (World initial_state (sessionStorage (saveSessionState w))
            (voting w) (session w) (page w) [])).1 = false.
Proof.
  intros w. split; [reflexivity|].
  by rewrite (inactive_session_not_restored w initial_state eq_refl).
Defined.

Lemma saveSessionState_in_step w :
  let w' := saveSessionState w in
  app w' = app w ∧
  if has_session (app w)
  then sessionStorage w' !! SESSION_ID = sessionId (app w) ∧
       sessionStorage w' !! SESSION_ACTIVE =
         Some (if sessionActive (app w) then "true" else "false") ∧
       sessionStorage w' !! CURRENT_VIEW = Some (currentView (app w))
  else sessionStorage w' !! SESSION_ID = None ∧
       sessionStorage w' !! SESSION_ACTIVE = None ∧
       sessionStorage w' !! CURRENT_VIEW = None.
Proof.
  cbn zeta. split; [unfold saveSessionState; by destruct (has_session _)|].
  destruct (has_session (app w)) eqn:Hs.
  - destruct (has_session_inv _ Hs) as (id & Hid & Hne).
    rewrite Hid. by apply saveSessionState_keys.
  - unfold saveSessionState. rewrite Hs. apply clearSessionState_keys.
Qed.


(** X3.  Storage follows the state: after [setSessionActive], and after a
    [showView] that finds its view, [sessionStorage] holds the id, the
    flag and the view of a state with a session id, and none of the
    three keys otherwise.  A [showView] that finds no view changes
    nothing. *)
Theorem storage_follows_state (active : bool) (id : option string) (v : string)
    (w : world) :
  let stored w' :=
    if has_session (app w')
    then sessionStorage w' !! SESSION_ID = sessionId (app w') ∧
         sessionStorage w' !! SESSION_ACTIVE =
           Some (if sessionActive (app w') then "true" else "false") ∧
         sessionStorage w' !! CURRENT_VIEW = Some (currentView (app w'))
    else sessionStorage w' !! SESSION_ID = None ∧
         sessionStorage w' !! SESSION_ACTIVE = None ∧
         sessionStorage w' !! CURRENT_VIEW = None in
  stored (setSessionActive active id w) ∧
  sessionActive (app (setSessionActive active id w)) = active ∧
  (has_element ("view-" ++ v) w = true →
     stored (showView v w) ∧ currentView (app (showView v w)) = v) ∧
  (has_element ("view-" ++ v) w = false → showView v w = w).
Proof.
  cbn zeta. repeat split.
  - unfold setSessionActive.
    match goal with |- context [saveSessionState ?x] =>
      destruct (saveSessionState_in_step x) as [-> H]; exact H end.
  - unfold setSessionActive.
    match goal with |- context [saveSessionState ?x] =>
      destruct (saveSessionState_in_step x) as [-> _] end.
    unfold updateSessionUI. rewrite !app_write_disabled.
    destruct id as [i|]; [destruct (String.eqb i "")|]; done.
  - unfold showView. rewrite H.
    match goal with |- context [saveSessionState ?x] =>
      destruct (saveSessionState_in_step x) as [-> H']; exact H' end.
  - unfold showView. rewrite H.
    match goal with |- context [saveSessionState ?x] =>
      destruct (saveSessionState_in_step x) as [-> _] end. done.
  - unfold showView. by intros ->.
Qed.

Lemma storage_follows_state_witness :
  let w := started_world {[ "view-voting" ]} "4f2a9c1e" in
  has_element "view-voting" w = true ∧
  sessionStorage (showView "voting" w) !! CURRENT_VIEW = Some "voting".
Proof.
  intros w. split; [reflexivity|].
  destruct (storage_follows_state true None "voting" w) as (_ & _ & H & _).
  destruct (H eq_refl) as [Hst Hv].
  assert (Hs : has_session (app (showView "voting" w)) = true) by reflexivity.
  rewrite Hs in Hst. destruct Hst as (_ & _ & ->). by rewrite Hv.
Defined.

(** Ending a council leaves nothing to restore. *)
Lemma session_cleared_endCouncil confirmed sessionScript w :
  session_cleared (endCouncil false confirmed sessionScript w).2.
Proof.
  unfold endCouncil. cbn [andb fst snd].
  apply showView_cleared.
  assert (H1 : session_cleared (clearSessionState
            (with_app (λ s, set_sessionActive false (set_sessionId None s)) w))).
  { pose proof (clearSessionState_keys
      (with_app (λ s, set_sessionActive false (set_sessionId None s)) w)) as (?&?&?).
    by repeat split. }
  revert H1. generalize (clearSessionState
    (with_app (λ s, set_sessionActive false (set_sessionId None s)) w)).
  intros w1 H1.
  assert (H2 : session_cleared (initializeWorkerCards (updateSessionUI w1))).
  { pose proof (initializeWorkerCards_frame (updateSessionUI w1)) as (?&?&?&?&?&?).
    eapply session_cleared_ext; [done..|]. unfold updateSessionUI.
    eapply session_cleared_ext; [| | |exact H1];
      by rewrite ?app_write_disabled, ?storage_write_disabled. }
  revert H2. generalize (initializeWorkerCards (updateSessionUI w1)). intros w2 H2.
  assert (H3 : session_cleared
            (if sessionScript then updateWorkerRoster (clearLog w2) else w2)).
  { destruct sessionScript; [|done].
    pose proof (updateWorkerRoster_frame (clearLog w2)) as (?&?&?&?).
    by eapply session_cleared_ext. }
  revert H3. generalize (if sessionScript then updateWorkerRoster (clearLog w2) else w2).
  intros w3 H3.
  assert (H4 : session_cleared (write_disabled "btn-diversify" true
            (write_disabled "prompt-input" false (write_value "prompt-input" "" w3)))).
  { eapply session_cleared_ext; [| | |exact H3];
      by rewrite ?app_write_disabled, ?storage_write_disabled,
                 ?app_write_value, ?storage_write_value. }
  revert H4. generalize (write_disabled "btn-diversify" true
            (write_disabled "prompt-input" false (write_value "prompt-input" "" w3))).
  intros w4 H4. by destruct sessionScript.
Qed.

(** X4.  After [endCouncil(false)] a reload of the page restores no session:
    [loadSessionState] answers [false] and changes nothing, whatever
    state the reloaded page starts from. *)
Theorem ended_council_not_restored (confirmed sessionScript : bool) (w : world)
    (fresh : state) :
  let ended := (endCouncil false confirmed sessionScript w).2 in
  let reloaded :=
    World fresh (sessionStorage ended) (voting ended) (session ended) (page ended) [] in
  loadSessionState reloaded = (false, reloaded).
Proof.
  intros ended reloaded.
  destruct (session_cleared_endCouncil confirmed sessionScript w) as (_ & _ & K & _).
  fold ended in K. unfold loadSessionState. subst reloaded. cbn [sessionStorage].
  by rewrite K.
Qed.

End Persistence.

(** ** How many workers there are *)

Section WorkerRange.

Implicit Types (w : world) (s : state).

Lemma workers_initializeWorkerCards w :
  has_element "workers-grid" w = true →
  length (workers (app (initializeWorkerCards w))) =
  iterations (or_else (configured_worker_count (app w))
                (Num (if String.eqb (currentMode (app w)) "32GB" then 3 else 2))).
Proof.
  intros Hg. unfold initializeWorkerCards. rewrite Hg.
  cbn [app with_app workers set_workers]. by rewrite length_map, length_seq.
Qed.

Lemma has_element_with_app id f w : has_element id (with_app f w) = has_element id w.
Proof. done. Qed.

Lemma clampedCount_cases s entered :
  clampedCount s entered = NaN ∨ in_worker_range s (clampedCount s entered).
Proof.
  destruct (parseInt entered) as [|z] eqn:Hp.
  - left. by apply clampedCount_non_numeric.
  - right. destruct (clampedCount_numeric s entered z Hp) as (n & -> & ? & ?).
    by exists n.
Qed.

(** X5.  Whatever is typed into the worker-count control, the worker list
    that the [change] listener rebuilds has at least 2 workers and at
    most the mode's maximum (3, or 4 in 32GB mode): text without a
    number falls back to the mode's default of 2 or 3 workers. *)
Theorem workers_after_change_in_range (entered : string) (w : world) :
  has_element "workers-grid" w = true →
  in_worker_range (app w)
    (Num (Z.of_nat (length (workers (app (workerCount_change entered w)))))).
Proof.
  intros Hg. unfold workerCount_change, updateWorkerCount.
  rewrite app_write_value, workers_initializeWorkerCards
    by by rewrite has_element_with_app, has_element_write_value.
  cbn [app with_app]. rewrite app_write_value.
  unfold in_worker_range. eexists. split; [done|].
  destruct (clampedCount_cases (app w) entered) as [Hn | (n & Hc & H2 & Hmax)].
  - rewrite Hn. destruct (state_config (app w)) as [c|] eqn:Hc;
      unfold configured_worker_count;
      cbn [state_config set_config worker_count currentMode or_else truthy];
      rewrite ?Hc; cbn [or_else truthy iterations];
      destruct (String.eqb (currentMode (app w)) "32GB"); cbn; lia.
  - rewrite Hc. destruct (state_config (app w)) as [c|] eqn:Hcfg;
      unfold configured_worker_count;
      cbn [state_config set_config worker_count currentMode];
      rewrite ?Hcfg; unfold or_else; cbn [truthy iterations].
    + replace (n =? 0) with false by (symmetry; apply Z.eqb_neq; lia).
      cbn [negb iterations]. rewrite Z2Nat.id by lia. lia.
    + destruct (String.eqb (currentMode (app w)) "32GB"); cbn; lia.
Qed.

Lemma workers_after_change_in_range_witness :
  let w := initial_world {[ "workers-grid" ]} in
  has_element "workers-grid" w = true ∧
  (2 ≤ length (workers (app (workerCount_change "lots" w))) ≤ 3)%nat.
Proof.
  intros w. split; [reflexivity|].
  destruct (workers_after_change_in_range "lots" w eq_refl) as (z & Hz & H2 & H3).
  injection Hz as <-. change (currentMode (app w)) with "16GB" in H3. cbn in H3. lia.
Defined.

Lemma value_with_app f w : value (page (with_app f w)) = value (page w).
Proof. done. Qed.

Lemma value_initializeWorkerCards w :
  value (page (initializeWorkerCards w)) = value (page w) ∧
  element_ids (page (initializeWorkerCards w)) = element_ids (page w).
Proof. unfold initializeWorkerCards. by destruct (has_element _ w). Qed.

Lemma control_text_after_change entered w :
  has_element "setting-worker-count" w = true →
  control_text "setting-worker-count" (workerCount_change entered w) =
  number_to_string (clampedCount (app w) entered).
Proof.
  intros Hc. unfold control_text, workerCount_change, updateWorkerCount.
  rewrite has_element_write_value. unfold has_element at 1.
  destruct (value_initializeWorkerCards
    (with_app (λ s, match state_config s with
                    | Some c => set_config (Some (Config (config_mode c)
                                  (clampedCount (app w) entered))) s
                    | None => s
                    end)
       (write_value "setting-worker-count"
          (number_to_string (clampedCount (app w) entered)) w))) as [Hv He].
  rewrite He. cbn [page with_app].
  fold (has_element "setting-worker-count"
          (write_value "setting-worker-count"
             (number_to_string (clampedCount (app w) entered)) w)).
  rewrite has_element_write_value, Hc.
  rewrite value_write_value_ne by done. rewrite Hv, value_with_app.
  by rewrite value_write_value_eq.
Qed.

(** X6.  The control keeps what the listener wrote: when the pipeline
    settings are read after a change of the worker count, the count
    they pick up is within the mode's range, for every text that was
    typed.  A count the listener clamped comes back as it is; the
    [NaN] it writes for text without a number is read as 2. *)
Theorem settings_after_change_in_range (entered : string) (w : world) :
  has_element "setting-worker-count" w = true →
  let st := (updatePipelineSettings (workerCount_change entered w)).1 in
  in_worker_range (app w) (settings_worker_count st) ∧
  (in_worker_range (app w) (clampedCount (app w) entered) →
     settings_worker_count st = clampedCount (app w) entered).
Proof.
  intros Hc st. subst st. unfold updatePipelineSettings.
  cbn [fst settings_worker_count]. unfold control_number.
  rewrite control_text_after_change by done.
  destruct (clampedCount_cases (app w) entered) as [Hn | Hin].
  - rewrite Hn. split.
    + exists 2. cbn. split; [done|]. destruct (String.eqb _ _); lia.
    + intros (z & [=] & _).
  - assert (Hrt : or_else (parseInt (number_to_string (clampedCount (app w) entered)))
                          (Num 2) = clampedCount (app w) entered).
    { destruct Hin as (n & -> & H2 & Hmax).
      assert (n = 2 ∨ n = 3 ∨ n = 4) as [-> | [-> | ->]]
        by (destruct (String.eqb _ _); lia); reflexivity. }
    rewrite Hrt. by split.
Qed.

Lemma settings_after_change_in_range_witness :
  let w := initial_world {[ "setting-worker-count" ]} in
  has_element "setting-worker-count" w = true ∧
  settings_worker_count (updatePipelineSettings (workerCount_change "7" w)).1 = Num 3.
Proof.
  intros w. split; [reflexivity|].
  destruct (settings_after_change_in_range "7" w eq_refl) as [_ H].
  rewrite H; [reflexivity|]. exists 3. repeat split; cbn; lia.
Defined.



End WorkerRange.

(** ** Token accounting *)

Section Tokens.

Implicit Types (w : world) (d : tokenData).

Lemma updateTokenStats_step d source limit w :
  tokens_add_up (state_tokenStats (app w)) → consistent d →
  let t := state_tokenStats (app w) in
  let t' := state_tokenStats (app (updateTokenStats (Some d) source limit w)) in
  tokens_add_up t' ∧ callCount t' = callCount t + 1 ∧
  inputTokens t' = inputTokens t + input_tokens d ∧
  outputTokens t' = outputTokens t + output_tokens d.
Proof.
  unfold tokens_add_up, consistent. intros Hsum Hd.
  cbn [updateTokenStats app with_app state_tokenStats set_tokenStats
       totalTokens inputTokens outputTokens callCount].
  destruct (Z.eqb_spec (input_tokens d) 0) as [Hi|Hi],
           (Z.eqb_spec (output_tokens d) 0) as [Ho|Ho],
           (Z.eqb_spec (total_tokens d) 0) as [Ht|Ht]; lia.
Qed.

Lemma sum_snoc (l : list Z) (x : Z) :
  foldr Z.add 0 (l ++ [x]) = foldr Z.add 0 l + x.
Proof. induction l as [|y l IH]; cbn; lia. Qed.

Lemma token_updates_snoc us u w :
  token_updates (us ++ [u]) w = updateTokenStats (Some u.1.1) u.1.2 u.2 (token_updates us w).
Proof. unfold token_updates. by rewrite fold_left_app. Qed.

(** X8.  The token counters stay consistent.  If the total is the sum of the
    input and output counts to begin with, and each event either gives
    no total or gives the sum of its two counts, then after any run of
    updates the total is still the sum, the input and output counts have
    grown by what the events carried, and the call count by the number
    of events.  A reset then zeroes the counters and keeps the two
    context limits. *)
Theorem token_counters_add_up (us : list (tokenData * string * Z)) (w : world) :
  tokens_add_up (state_tokenStats (app w)) →
  Forall (λ u, consistent u.1.1) us →
  let t0 := state_tokenStats (app w) in
  let t := state_tokenStats (app (token_updates us w)) in
  let r := state_tokenStats (app (resetTokenStats (token_updates us w))) in
  tokens_add_up t ∧
  callCount t = callCount t0 + Z.of_nat (length us) ∧
  inputTokens t = inputTokens t0 + foldr Z.add 0 ((λ u, input_tokens u.1.1) <$> us) ∧
  outputTokens t = outputTokens t0 + foldr Z.add 0 ((λ u, output_tokens u.1.1) <$> us) ∧
  r = TokenStats 0 0 0 0 (workerContextLimit t) (synthContextLimit t) 0 0.
Proof.
  intros Hsum Hall. cbn zeta.
  enough (tokens_add_up (state_tokenStats (app (token_updates us w))) ∧
          callCount (state_tokenStats (app (token_updates us w))) =
            callCount (state_tokenStats (app w)) + Z.of_nat (length us) ∧
          inputTokens (state_tokenStats (app (token_updates us w))) =
            inputTokens (state_tokenStats (app w)) +
            foldr Z.add 0 ((λ u, input_tokens u.1.1) <$> us) ∧
          outputTokens (state_tokenStats (app (token_updates us w))) =
            outputTokens (state_tokenStats (app w)) +
            foldr Z.add 0 ((λ u, output_tokens u.1.1) <$> us))
    as (? & ? & ? & ?) by done.
  induction us as [|u us IH] using rev_ind.
  - cbn [token_updates fold_left length fmap list_fmap foldr]. repeat split; [done|lia..].
  - apply Forall_app in Hall as [Hus Hu]. apply Forall_inv in Hu.
    destruct (IH Hus) as (I1 & I2 & I3 & I4).
    rewrite token_updates_snoc.
    destruct (updateTokenStats_step u.1.1 u.1.2 u.2 (token_updates us w) I1 Hu)
      as (S1 & S2 & S3 & S4).
    rewrite !fmap_app, length_app. cbn [fmap list_fmap length]. rewrite !sum_snoc.
    repeat split; [done|lia..].
Qed.

Lemma token_counters_add_up_witness :
  let us := [ (TokenData 120 80 200 0 0, "worker", 0);
              (TokenData 50 0 0 4096 0, "synth", 0) ] in
  tokens_add_up (state_tokenStats (app (initial_world ∅))) ∧
  totalTokens (state_tokenStats (app (token_updates us (initial_world ∅)))) = 250.
Proof.
  intros us. split; [reflexivity|].
  destruct (token_counters_add_up us (initial_world ∅)) as (H1 & _ & H3 & H4 & _).
  - reflexivity.
  - subst us. apply Forall_cons. split; [by right|].
    apply Forall_cons. split; [by left|]. apply Forall_nil_2.
  - rewrite H1, H3, H4. reflexivity.
Defined.

End Tokens.

(** ** Swapping a persona before a session has started *)

Section LocalSwap.

Implicit Types (ws : list worker) (p : persona) (w : world).

Lemma rebind_found id p ws :
  id ∈ worker_id <$> ws →
  ∃ i k, ws !! i = Some k ∧ worker_id k = id ∧ rebind id p ws = <[i := Worker id p]> ws.
Proof.
  intros Hin. unfold rebind.
  destruct (list_find (λ k, worker_id k = id) ws) as [[i k]|] eqn:Hf.
  - apply list_find_Some in Hf as (Hl & Hid & _). eauto.
  - apply list_find_None in Hf. apply list_elem_of_fmap in Hin as (k & -> & Hk).
    rewrite Forall_forall in Hf. by destruct (Hf k Hk).
Qed.

Lemma rebind_ids id p ws : worker_id <$> rebind id p ws = worker_id <$> ws.
Proof.
  unfold rebind.
  destruct (list_find (λ k, worker_id k = id) ws) as [[i k]|] eqn:Hf; [|done].
  apply list_find_Some in Hf as (Hl & Hid & _).
  rewrite list_fmap_insert. cbn [worker_id]. apply list_insert_id.
  by rewrite list_lookup_fmap, Hl, <- Hid.
Qed.

Lemma rebind_other id p ws j k :
  ws !! j = Some k → worker_id k ≠ id → rebind id p ws !! j = Some k.
Proof.
  intros Hj Hne. unfold rebind.
  destruct (list_find (λ k, worker_id k = id) ws) as [[i k']|] eqn:Hf; [|done].
  apply list_find_Some in Hf as (Hl & Hid & _).
  rewrite list_lookup_insert_ne; [done|]. intros ->. congruence.
Qed.

(** X9.  Without a session, a swap stays in the browser: nothing is sent,
    the workers keep their number, order and ids, every worker other
    than the one named keeps its persona, and the named worker, if it
    exists and the chosen persona is known, is bound to that persona. *)
Theorem confirmSwap_without_session (wid pid action : string)
    (response : option swapResult) (w : world) :
  has_session (app w) = false →
  let w' := confirmSwap (Some wid) pid action response w in
  trace w' = trace w ∧
  sessionStorage w' = sessionStorage w ∧
  worker_id <$> workers (app w') = worker_id <$> workers (app w) ∧
  (∀ j k, workers (app w) !! j = Some k → worker_id k ≠ wid →
          workers (app w') !! j = Some k) ∧
  (∀ p, find (λ p, bool_decide (persona_id p = Some pid)) (personas (app w)) = Some p →
        wid ∈ worker_id <$> workers (app w) →
        Worker wid p ∈ workers (app w')).
Proof.
  intros Hs. unfold confirmSwap. rewrite Hs. cbn [andb].
  destruct (find _ (personas (app w))) as [p|] eqn:Hp.
  - destruct (bool_decide (wid ∈ worker_id <$> workers (app w))) eqn:Hin.
    + apply bool_decide_eq_true_1 in Hin.
      rewrite trace_write_value, storage_write_value, app_write_value.
      cbn [app with_app workers set_workers trace sessionStorage].
      repeat split; [apply rebind_ids|by intros; eapply rebind_other|].
      intros p' [= <-] _.
      destruct (rebind_found wid p (workers (app w)) Hin) as (i & k & Hl & _ & ->).
      apply list_elem_of_lookup. exists i. apply list_lookup_insert_eq.
      by eapply lookup_lt_Some.
    + apply bool_decide_eq_false_1 in Hin. repeat split; [done|]. by intros.
  - by repeat split.
Qed.

Lemma confirmSwap_without_session_witness :
  let skeptic := Persona (Some "skeptic") "Skeptic" in
  let w := with_app (λ s,
             State (currentView s) (currentMode s) (sessionId s) (sessionActive s)
                   [Persona (Some "analyst") "Analyst"; skeptic]
                   [Worker "worker_1" (Persona None "Default");
                    Worker "worker_2" (Persona None "Default")]
                   (state_config s) (state_tokenStats s) (candidates s) (votingResult s))
             (initial_world ∅) in
  has_session (app w) = false ∧
  Worker "worker_2" skeptic ∈
    workers (app (confirmSwap (Some "worker_2") "skeptic" "keep_all" None w)).
Proof.
  intros skeptic w. split; [reflexivity|].
  destruct (confirmSwap_without_session "worker_2" "skeptic" "keep_all" None w eq_refl)
    as (_ & _ & _ & _ & H).
  apply H; [reflexivity|]. subst w. cbn. set_solver.
Defined.

End LocalSwap.

(** ** The ballot *)

Section Ballot.

Implicit Types (w : world) (calls : list (string * Z)).

Lemma canSubmit_always w : canSubmit w = true.
Proof. unfold canSubmit. by rewrite !orb_true_r. Qed.

Lemma setVote_frame c r w :
  let w' := setVote c r w in
  app w' = app w ∧ trace w' = trace w ∧
  element_ids (page w') = element_ids (page w) ∧
  set_votes ∅ (voting w') = set_votes ∅ (voting w).
Proof.
  unfold setVote, updateSubmitButton.
  rewrite app_write_disabled, trace_write_disabled.
  unfold write_disabled. by destruct (has_element _ _).
Qed.

Lemma setVotes_frame calls w :
  let w' := setVotes calls w in
  app w' = app w ∧ trace w' = trace w ∧
  element_ids (page w') = element_ids (page w) ∧
  set_votes ∅ (voting w') = set_votes ∅ (voting w).
Proof.
  induction calls as [|[c r] calls IH] using rev_ind; [done|].
  rewrite setVotes_snoc. cbn zeta in *.
  destruct IH as (I1 & I2 & I3 & I4).
  destruct (setVote_frame c r (setVotes calls w)) as (S1 & S2 & S3 & S4).
  cbn zeta in *. by rewrite S1, S2, S3, S4.
Qed.

Lemma buildVotingUI_frame cands w :
  let w' := buildVotingUI cands w in
  app w' = app w ∧ trace w' = trace w ∧
  element_ids (page w') = element_ids (page w) ∧
  voting w' = initial_votingState.
Proof.
  unfold buildVotingUI, updateSubmitButton. cbn zeta.
  rewrite app_write_disabled, trace_write_disabled, !app_write_value, !trace_write_value.
  split_and!.
  - destruct (no_candidates cands);
      by rewrite ?app_write_value, ?app_write_disabled.
  - destruct (no_candidates cands);
      by rewrite ?trace_write_value, ?trace_write_disabled.
  - unfold write_value, write_disabled.
    repeat (destruct (has_element _ _) || destruct (no_candidates _)); done.
  - unfold write_value, write_disabled.
    repeat (destruct (has_element _ _) || destruct (no_candidates _)); done.
Qed.

Lemma dom_setVote_votes c r (vs : gmap string Z) :
  dom (setVote_votes c r vs) = {[ c ]} ∪ dom vs.
Proof.
  unfold setVote_votes. rewrite dom_insert_L. f_equal.
  destruct (0 <? r); [|done]. unfold clear_rank.
  apply set_eq. intros k. rewrite !elem_of_dom, map_lookup_imap.
  destruct (vs !! k); cbn; split; intros [? ?]; eauto; done.
Qed.

(** X10.  The submit button cannot be switched off.  [updateSubmitButton]
    counts a prompt rating as given even when it is 0 (skip), so in a
    voting view that has the button, it is enabled after the view is
    built and after every vote, whatever the ballot and with or
    without candidates. *)
Theorem submit_button_stays_enabled calls (cands : option (list candidate)) (w : world) :
  has_element "btn-submit-votes" w = true →
  disabled (page (setVotes calls (buildVotingUI cands w))) !! "btn-submit-votes"
    = Some false.
Proof.
  intros Hb.
  assert (Hel : ∀ calls,
    has_element "btn-submit-votes" (setVotes calls (buildVotingUI cands w)) = true).
  { intros cs. unfold has_element.
    destruct (setVotes_frame cs (buildVotingUI cands w)) as (_ & _ & -> & _).
    destruct (buildVotingUI_frame cands w) as (_ & _ & -> & _). exact Hb. }
  destruct calls as [|[c r] calls _] using rev_ind.
  - unfold setVotes. cbn [fold_left]. unfold buildVotingUI, updateSubmitButton.
    cbn zeta. rewrite canSubmit_always. apply disabled_write_disabled_eq.
    rewrite !has_element_write_value.
    destruct (no_candidates cands);
      by rewrite ?has_element_write_value, ?has_element_write_disabled.
  - rewrite setVotes_snoc. unfold setVote, updateSubmitButton.
    rewrite canSubmit_always. apply disabled_write_disabled_eq. apply Hel.
Qed.

Lemma submit_button_stays_enabled_witness :
  let w := started_world voting_page "4f2a9c1e" in
  has_element "btn-submit-votes" w = true ∧
  disabled (page (setVotes [("a", 1); ("a", 0)] (buildVotingUI (Some []) w)))
    !! "btn-submit-votes" = Some false.
Proof.
  intros w. split; [reflexivity|].
  apply (submit_button_stays_enabled [("a", 1); ("a", 0)] (Some []) w). reflexivity.
Defined.

(** X11.  What gets posted is the ballot as clicked.  In a voting view with
    candidates, after any run of vote clicks, [submitVotes] posts one
    request whose [votes] hold a rank for exactly the candidates that
    were clicked, with no rank above 0 held twice; the feedback fields
    of a view nobody typed into are empty and the prompt rating is 0. *)
Theorem posted_ballot calls (cands : option (list candidate)) (response : option string)
    (w : world) :
  no_candidates (candidates (app w)) = false →
  let w1 := setVotes calls (buildVotingUI cands w) in
  ∃ vs,
    posts (trace (submitVotes response w1)) =
      (posts (trace w) ++
       [ (("/api/session/" ++ sessionId_text (app w) ++ "/vote")%string,
          [ ("votes", VRanks vs); ("candidate_feedback", VTexts ∅);
            ("overall_feedback", VStr ""); ("worker_feedback", VTexts ∅);
            ("synthesizer_feedback", VStr ""); ("prompt_rating", VNum (Num 0));
            ("prompt_feedback", VStr "") ]) ])%list ∧
    unique_ranks vs ∧
    dom vs = list_to_set calls.*1.
Proof.
  intros Hc w1.
  destruct (setVotes_frame calls (buildVotingUI cands w)) as (A1 & T1 & _ & V1).
  destruct (buildVotingUI_frame cands w) as (A2 & T2 & _ & V2).
  fold w1 in A1, T1, V1. rewrite V2 in V1.
  exists (votes (voting w1)). split; [|split].
  - rewrite submitVotes_with_candidates by by rewrite A1, A2.
    rewrite T1, T2, A1, A2. do 3 f_equal. unfold submitData.
    destruct (voting w1) as [vs cf wf o sf pr pf]. cbn in V1.
    injection V1 as -> -> -> -> -> ->. done.
  - subst w1. apply setVotes_from_fresh_view.
  - subst w1. clear. induction calls as [|[c r] calls IH] using rev_ind.
    + unfold setVotes. cbn [fold_left]. by rewrite votes_buildVotingUI, dom_empty_L.
    + rewrite setVotes_snoc, votes_setVote, dom_setVote_votes, IH.
      rewrite fmap_app, list_to_set_app_L. cbn [fmap list_fmap list_to_set fst foldr].
      rewrite (right_id_L ∅ (∪)). apply (comm_L (∪)).
Qed.

Lemma posted_ballot_witness :
  let w := with_app (set_candidates (Some [Candidate "c1" "first"; Candidate "c2" "second"]))
             (started_world voting_page "4f2a9c1e") in
  no_candidates (candidates (app w)) = false ∧
  ∃ vs, unique_ranks vs ∧ dom vs = ({[ "c1"; "c2" ]} : gset string).
Proof.
  intros w. split; [reflexivity|].
  destruct (posted_ballot [("c1", 1); ("c2", 1)] (candidates (app w)) None w eq_refl)
    as (vs & _ & Hu & Hd).
  exists vs. split; [exact Hu|]. rewrite Hd. cbn. set_solver.
Defined.

End Ballot.

(** ** What pipeline events cannot do *)

Section Passive.

Implicit Types (w : world) (e : event).

Lemma passive_refl w : passive w w.
Proof. unfold passive, log_extends. by split_and!. Qed.

Lemma passive_step w w1 w2 : passive w w1 → passive w1 w2 → passive w w2.
Proof.
  unfold passive, log_extends. intros (A1 & B1 & C1 & P1) (A2 & B2 & C2 & P2).
  split_and!; [congruence..|by etrans].
Qed.

Lemma passive_same w w' :
  sessionId (app w') = sessionId (app w) →
  sessionActive (app w') = sessionActive (app w) →
  element_ids (page w') = element_ids (page w) →
  logEntries (session w') = logEntries (session w) →
  passive w w'.
Proof. unfold passive, log_extends. intros -> -> -> ->. by split_and!. Qed.

Lemma passive_with_app f w :
  (∀ s, sessionId (f s) = sessionId s ∧ sessionActive (f s) = sessionActive s) →
  passive w (with_app f w).
Proof. intros Hf. destruct (Hf (app w)). by apply passive_same. Qed.

Lemma passive_with_session f w :
  (∀ v, logEntries (f v) = logEntries v) → passive w (with_session f w).
Proof. intros Hf. apply passive_same; try done. apply Hf. Qed.

Lemma passive_with_voting f w : passive w (with_voting f w).
Proof. by apply passive_same. Qed.

Lemma passive_emit x w : passive w (emit x w).
Proof. by apply passive_same. Qed.

Lemma passive_appendLog stage wid persona content type w :
  passive w (appendLog stage wid persona content type w).
Proof.
  unfold passive, log_extends. split_and!; try done. cbn. by apply prefix_app_r.
Qed.

Lemma passive_write_value id v w : passive w (write_value id v w).
Proof. unfold write_value. destruct (has_element id w); by apply passive_same. Qed.

Lemma passive_write_disabled id b w : passive w (write_disabled id b w).
Proof. unfold write_disabled. destruct (has_element id w); by apply passive_same. Qed.

Lemma passive_saveSessionState w : passive w (saveSessionState w).
Proof. unfold saveSessionState. destruct (has_session _); by apply passive_same. Qed.

Create HintDb passive.

#[local] Hint Resolve passive_with_voting passive_emit passive_appendLog
  passive_write_value passive_write_disabled passive_saveSessionState : passive.
#[local] Hint Extern 1 (passive _ (with_app _ _)) =>
  apply passive_with_app; intros ?; split; reflexivity : passive.
#[local] Hint Extern 1 (passive _ (with_session _ _)) =>
  apply passive_with_session; intros ?; reflexivity : passive.

Ltac passive_chain :=
  repeat first
    [ apply passive_refl
    | eapply passive_step; [| solve [eauto with passive] ] ].

Lemma passive_showView v w : passive w (showView v w).
Proof. unfold showView. destruct (has_element _ w); passive_chain. Qed.

Lemma passive_buildVotingUI cands w : passive w (buildVotingUI cands w).
Proof.
  unfold buildVotingUI, updateSubmitButton. cbn zeta.
  destruct (no_candidates cands); passive_chain.
Qed.

#[local] Hint Resolve passive_showView passive_buildVotingUI : passive.

Lemma passive_transitionToVoting info w : passive w (transitionToVoting info w).
Proof.
  unfold transitionToVoting. cbn zeta.
  destruct (workers (app w)), info; passive_chain.
Qed.

Lemma passive_submitCollabFeedback_send skip w :
  passive w (submitCollabFeedback_send skip w).
Proof. unfold submitCollabFeedback_send. passive_chain. Qed.

#[local] Hint Resolve passive_transitionToVoting passive_submitCollabFeedback_send
  : passive.

Lemma passive_handlePipelineEvent e w : passive w (handlePipelineEvent e w).
Proof.
  unfold handlePipelineEvent. cbn zeta.
  repeat case_match; passive_chain.
Qed.

Lemma passive_onmessage e (c : eventSource * world) : passive c.2 (onmessage e c).2.
Proof.
  destruct c as [es w]. unfold onmessage, after_close.
  destruct (source_readyState es); [|apply passive_refl].
  cbn [source_endpoint]. pose proof (passive_handlePipelineEvent e w).
  destruct (closes_on _ _); [|done]. cbn [snd].
  destruct (source_endpoint es); passive_chain; done.
Qed.

Lemma passive_onerror (c : eventSource * world) : passive c.2 (onerror c).2.
Proof.
  destruct c as [es w]. unfold onerror.
  destruct (source_readyState es); [|apply passive_refl]. cbn [snd].
  destruct (source_endpoint es); passive_chain.
Qed.

(** X12.  A pipeline stream only adds.  Whatever one of the three streams
    delivers, messages of any kind and connection errors in any order,
    the client's session id and active flag stay as they are, and the
    session log keeps every entry it had, in order: entries are only
    appended. *)
Theorem deliver_passive (ds : list delivery) (c : eventSource * world) :
  sessionId (app (deliver ds c).2) = sessionId (app c.2) ∧
  sessionActive (app (deliver ds c).2) = sessionActive (app c.2) ∧
  logEntries (session c.2) `prefix_of` logEntries (session (deliver ds c).2).
Proof.
  enough (passive c.2 (deliver ds c).2) as (? & ? & _ & ?) by done.
  induction ds as [|d ds IH] using rev_ind; [apply passive_refl|].
  rewrite deliver_app. eapply passive_step; [exact IH|].
  unfold deliver. cbn [fold_left]. destruct d; [apply passive_onmessage|apply passive_onerror].
Qed.

End Passive.

(** ** What pipeline events send *)

Section Silent.

Implicit Types (w : world) (e : event).

Lemma silent_refl w : silent w w.
Proof. by split. Qed.

Lemma silent_step w w1 w2 : silent w w1 → silent w1 w2 → silent w w2.
Proof. unfold silent. intros [A1 B1] [A2 B2]. split; congruence. Qed.

Lemma silent_with_app f w : silent w (with_app f w).
Proof. by split. Qed.

Lemma silent_with_session f w : silent w (with_session f w).
Proof. by split. Qed.

Lemma silent_with_voting f w : silent w (with_voting f w).
Proof. by split. Qed.

Lemma silent_appendLog stage wid persona content type w :
  silent w (appendLog stage wid persona content type w).
Proof. by split. Qed.

Lemma silent_emit x w : is_request x = false → silent w (emit x w).
Proof.
  intros Hx. split; [done|]. rewrite requests_emit, Hx. apply app_nil_r.
Qed.

Lemma silent_write_value id v w : silent w (write_value id v w).
Proof. unfold write_value. by destruct (has_element id w). Qed.

Lemma silent_write_disabled id b w : silent w (write_disabled id b w).
Proof. unfold write_disabled. by destruct (has_element id w). Qed.

Lemma silent_saveSessionState w : silent w (saveSessionState w).
Proof. unfold saveSessionState. by destruct (has_session _). Qed.

Create HintDb silent.

#[local] Hint Resolve silent_with_app silent_with_session silent_with_voting
  silent_appendLog silent_write_value silent_write_disabled silent_saveSessionState
  : silent.
#[local] Hint Extern 1 (silent _ (emit _ _)) =>
  apply silent_emit; reflexivity : silent.

Ltac silent_chain :=
  repeat first
    [ apply silent_refl
    | eapply silent_step; [| solve [eauto with silent] ] ].

Lemma silent_showView v w : silent w (showView v w).
Proof. unfold showView. destruct (has_element _ w); silent_chain. Qed.

Lemma silent_buildVotingUI cands w : silent w (buildVotingUI cands w).
Proof.
  unfold buildVotingUI, updateSubmitButton. cbn zeta.
  destruct (no_candidates cands); silent_chain.
Qed.

#[local] Hint Resolve silent_showView silent_buildVotingUI : silent.

Lemma silent_transitionToVoting info w : silent w (transitionToVoting info w).
Proof.
  unfold transitionToVoting. cbn zeta.
  destruct (workers (app w)), info; silent_chain.
Qed.

#[local] Hint Resolve silent_transitionToVoting : silent.

Lemma silent_handlePipelineEvent e w :
  has_element "collab-feedback-modal" w = true → silent w (handlePipelineEvent e w).
Proof.
  intros Hm. unfold handlePipelineEvent. cbn zeta.
  change (has_element "collab-feedback-modal"
            (appendLog "collaboration" None None
               ("Collaboration round " ++
                (number_to_string (event_round e) ++ "/" ++
                 number_to_string (event_total_rounds e)) ++
                " complete - awaiting feedback") "info"
               (with_session (set_rounds (event_round e) (event_total_rounds e)) w)))
    with (has_element "collab-feedback-modal" w).
  rewrite Hm. repeat case_match; silent_chain.
Qed.

Lemma silent_has_element id w w' : silent w w' → has_element id w' = has_element id w.
Proof. intros [He _]. unfold has_element. by rewrite He. Qed.

Lemma silent_deliver_one d (c : eventSource * world) :
  has_element "collab-feedback-modal" c.2 = true → silent c.2 (deliver_one c d).2.
Proof.
  destruct c as [es w]. cbn [snd]. intros Hm. destruct d as [e|]; cbn [deliver_one].
  - unfold onmessage, after_close.
    destruct (source_readyState es); [|apply silent_refl].
    cbn [source_endpoint]. pose proof (silent_handlePipelineEvent e w Hm).
    destruct (closes_on _ _); [|done]. cbn [snd].
    destruct (source_endpoint es); silent_chain; done.
  - unfold onerror. destruct (source_readyState es); [|apply silent_refl]. cbn [snd].
    destruct (source_endpoint es); silent_chain.
Qed.

(** X13.  Listening costs nothing.  On a page that has the collaboration
    modal, no message and no connection error on a pipeline stream makes
    the client send anything: after any run of deliveries the requests
    issued are those issued before. *)
Theorem deliver_sends_nothing (ds : list delivery) (c : eventSource * world) :
  has_element "collab-feedback-modal" c.2 = true →
  requests (trace (deliver ds c).2) = requests (trace c.2).
Proof.
  intros Hm. enough (silent c.2 (deliver ds c).2) as [_ H] by exact H.
  induction ds as [|d ds IH] using rev_ind; [apply silent_refl|].
  rewrite deliver_app. eapply silent_step; [exact IH|].
  unfold deliver. cbn [fold_left]. apply silent_deliver_one.
  by rewrite (silent_has_element _ _ _ IH).
Qed.

Lemma deliver_sends_nothing_witness :
  let c := connect run (started_world {[ "collab-feedback-modal" ]} "4f2a9c1e") in
  has_element "collab-feedback-modal" c.2 = true ∧
  requests (trace (deliver [Message (bare_event "awaiting_collab_feedback");
                            ConnectionLost] c).2) =
    [OpenEventSource "/api/session/4f2a9c1e/run"].
Proof.
  intros c. split; [reflexivity|].
  rewrite (deliver_sends_nothing _ c eq_refl). reflexivity.
Defined.

(** X14.  A page without the collaboration modal skips the checkpoint by
    itself.  On [awaiting_collab_feedback] the handler posts
    [collab-feedback] at once, for the round the event names and with
    [skip_to_synthesis] set; the feedback map it sends is the one left
    over from before, since only the modal path empties it. *)
Theorem collab_checkpoint_without_modal (e : event) (w : world) :
  has_element "collab-feedback-modal" w = false →
  event_type e = "awaiting_collab_feedback" →
  let w' := handlePipelineEvent e w in
  posts (trace w') =
    (posts (trace w) ++
     [ (feedback_url (app w) "collab-feedback",
        [ ("round", VNum (event_round e));
          ("worker_feedback", VTexts (collabWorkerFeedback (session w)));
          ("skip_to_synthesis", VBool true) ]) ])%list ∧
  collabWorkerFeedback (session w') = collabWorkerFeedback (session w) ∧
  currentRound (session w') = event_round e.
Proof.
  intros Hm Hty. unfold handlePipelineEvent. rewrite Hty. cbn zeta.
  cbn [String.eqb Ascii.eqb Bool.eqb].
  change (has_element "collab-feedback-modal" (appendLog _ _ _ _ _ (with_session _ w)))
    with (has_element "collab-feedback-modal" w).
  rewrite Hm. unfold submitCollabFeedback_send. rewrite posts_emit. done.
Qed.

Lemma collab_checkpoint_without_modal_witness :
  let w := started_world ∅ "4f2a9c1e" in
  let e := Event "awaiting_collab_feedback" None None None NoOutput ""
                 (Num 2) (Num 3) None None None false [] in
  has_element "collab-feedback-modal" w = false ∧
  currentRound (session (handlePipelineEvent e w)) = Num 2.
Proof.
  intros w e. split; [reflexivity|].
  by destruct (collab_checkpoint_without_modal e w eq_refl eq_refl) as (_ & _ & ->).
Defined.

End Silent.

(** ** Diversifying *)

Section Diversify.

Implicit Types (w : world) (c : eventSource * world).

Lemma endpoint_deliver_one d c :
  source_endpoint (deliver_one c d).1 = source_endpoint c.1.
Proof.
  destruct c as [es w], d as [e|]; cbn [deliver_one]; unfold onmessage, onerror;
    destruct (source_readyState es); try done.
  cbn [source_endpoint]. by destruct (closes_on _ _).
Qed.

Lemma diversify_closed_enabled d c :
  source_endpoint c.1 = diversify →
  has_element "btn-diversify" c.2 = true →
  source_readyState c.1 = OPEN →
  source_readyState (deliver_one c d).1 = CLOSED →
  disabled (page (deliver_one c d).2) !! "btn-diversify" = Some false.
Proof.
  destruct c as [es w]. cbn [fst snd]. intros Hep Hb Ho.
  destruct d as [e|]; cbn [deliver_one]; unfold onmessage, onerror; rewrite Ho.
  - cbn [source_endpoint]. rewrite Hep. destruct (closes_on _ _); [|done].
    intros _. cbn [snd after_close]. apply disabled_write_disabled_eq.
    destruct (passive_handlePipelineEvent e w) as (_ & _ & He & _).
    unfold has_element in *. cbn [page emit]. by rewrite He.
  - rewrite Hep. intros _. cbn [snd]. by apply disabled_write_disabled_eq.
Qed.

Lemma diversify_invariant ds c :
  source_endpoint c.1 = diversify →
  has_element "btn-diversify" c.2 = true →
  (source_readyState c.1 = CLOSED →
     disabled (page c.2) !! "btn-diversify" = Some false) →
  source_readyState (deliver ds c).1 = CLOSED →
  disabled (page (deliver ds c).2) !! "btn-diversify" = Some false.
Proof.
  revert c. induction ds as [|d ds IH]; intros c Hep Hb Hinv; [exact Hinv|].
  unfold deliver. cbn [fold_left]. apply IH.
  - by rewrite endpoint_deliver_one.
  - destruct c as [es w], d as [e|]; cbn [deliver_one].
    + destruct (passive_onmessage e (es, w)) as (_ & _ & He & _).
      unfold has_element in *. by rewrite He.
    + destruct (passive_onerror (es, w)) as (_ & _ & He & _).
      unfold has_element in *. by rewrite He.
  - destruct (source_readyState c.1) eqn:Ho.
    + by apply diversify_closed_enabled.
    + intros _. replace (deliver_one c d) with c; [by apply Hinv|].
      symmetry. apply (deliver_closed [d] c Ho).
Qed.

(** X15.  The diversify button comes back.  Without a session id,
    [diversifyWorkers] only alerts and opens no stream.  With one it
    disables the button and opens the diversify stream; and however
    that stream ends, by [complete], by [error] or by a lost connection,
    the button is enabled again once the stream is closed. *)
Theorem diversify_button_restored (ds : list delivery) (w : world) :
  has_element "btn-diversify" w = true →
  match (diversifyWorkers w).1 with
  | Some es =>
      has_session (app w) = true ∧
      source_endpoint es = diversify ∧ source_readyState es = OPEN ∧
      disabled (page (diversifyWorkers w).2) !! "btn-diversify" = Some true ∧
      (source_readyState (deliver ds (es, (diversifyWorkers w).2)).1 = CLOSED →
       disabled (page (deliver ds (es, (diversifyWorkers w).2)).2) !! "btn-diversify"
         = Some false)
  | None =>
      has_session (app w) = false ∧
      diversifyWorkers w = (None, emit (Alert "No active session") w)
  end.
Proof.
  intros Hb. unfold diversifyWorkers. destruct (has_session (app w)); [|done].
  cbn [connect fst snd]. split_and!; try done.
  - unfold open_stream. cbn [page emit]. by apply disabled_write_disabled_eq.
  - apply diversify_invariant; [done| |done].
    cbn [snd]. unfold open_stream, has_element. cbn [page emit].
    fold (has_element "btn-diversify"
            (write_disabled "btn-diversify" true
               (appendLog "system" None None
                  "Triggering diversify action - workers will see each other's responses"
                  "info" w))).
    by rewrite has_element_write_disabled.
Qed.

Lemma diversify_button_restored_witness :
  let w := started_world {[ "btn-diversify" ]} "4f2a9c1e" in
  has_element "btn-diversify" w = true ∧
  disabled (page (deliver [Message (bare_event "worker_start"); ConnectionLost]
                    (connect diversify
                       (write_disabled "btn-diversify" true
                          (appendLog "system" None None
                             "Triggering diversify action - workers will see each other's responses"
                             "info" w)))).2) !! "btn-diversify" = Some false.
Proof.
  intros w. split; [reflexivity|].
  pose proof (diversify_button_restored
                [Message (bare_event "worker_start"); ConnectionLost] w eq_refl) as H.
  change (diversifyWorkers w).1 with
    (Some (connect diversify
             (write_disabled "btn-diversify" true
                (appendLog "system" None None
                   "Triggering diversify action - workers will see each other's responses"
                   "info" w))).1) in H.
  destruct H as (_ & _ & _ & _ & H). apply H. reflexivity.
Defined.

End Diversify.

(** ** Starting a session *)

Section Start.

Implicit Types (w : world) (ps : option settings).
















(** X18.  No session without a start.  With a blank prompt, [startSession]
    alerts and sends nothing; when the start call fails it alerts after
    the one request.  In both cases no stream is opened and [state] and
    [sessionStorage] record no session that was not there before. *)
Theorem startSession_without_start ps (w : world) :
  let r := startSession ps None w in
  r.1 = None ∧
  sessionId (app r.2) = sessionId (app w) ∧
  sessionActive (app r.2) = sessionActive (app w) ∧
  sessionStorage r.2 = sessionStorage w ∧
  (∃ message, last (trace r.2) = Some (Alert message)) ∧
  (trim (default "" (value (page w) !! "prompt-input")) = "" →
     ∀ response, startSession ps response w = (None, emit (Alert "Please enter a prompt") w)).
Proof.
  cbn zeta. unfold startSession.
  destruct (String.eqb (trim _) "") eqn:Hp.
  - cbn [fst snd app sessionStorage emit trace]. rewrite last_snoc.
    split_and!; eauto.
  - cbn [fst snd app sessionStorage emit trace appendLog with_session]. rewrite last_snoc.
    destruct (updateWorkerRoster_frame (clearLog w)) as (-> & -> & -> & _).
    split_and!; eauto. intros H. apply String.eqb_neq in Hp. done.
Qed.

Lemma startSession_without_start_witness :
  let w := initial_world {[ "prompt-input" ]} in
  trim (default "" (value (page w) !! "prompt-input")) = "" ∧
  startSession None (Some (SessionCreated "4f2a9c1e" (Num 2))) w =
    (None, emit (Alert "Please enter a prompt") w).
Proof.
  intros w. split; [reflexivity|].
  destruct (startSession_without_start None w) as (_ & _ & _ & _ & _ & H).
  by apply H.
Defined.

End Start.

(** ** Finalizing *)

Section Finalize.

Implicit Types (w : world) (fs : finalizeStream) (e : finalizeEvent).



Lemma finalize_messages_snoc es e (c : finalizeStream * world) :
  finalize_messages (es ++ [e]) c = finalize_onmessage e (finalize_messages es c).
Proof. unfold finalize_messages. by rewrite fold_left_app. Qed.


Lemma finalize_messages_closed es (c : finalizeStream * world) :
  finalize_readyState c.1 = CLOSED → finalize_messages es c = c.
Proof.
  intros Hc. induction es as [|e es IH] using rev_ind; [done|].
  rewrite finalize_messages_snoc, IH. destruct c as [fs w]. cbn in *.
  by rewrite Hc.
Qed.



(** X20.  An [error] event ends finalizing for good.  On an open finalize
    stream it closes the stream and rejects the promise with the
    event's message, which [submitVotes] reports in an alert; nothing
    is sent.  Whatever arrives afterwards, a [final_output] or the end
    of the connection included, changes nothing: no final view, no
    final-feedback call. *)
Theorem finalize_error_is_final (e : finalizeEvent) (fs : finalizeStream) (w : world)
    (later : list finalizeEvent) (ok : bool) :
  finalize_type e = "error" →
  finalize_readyState fs = OPEN →
  let c := finalize_onmessage e (fs, w) in
  finalize_readyState c.1 = CLOSED ∧
  finalize_settled c.1 = Rejected (finalize_message e) ∧
  app c.2 = app w ∧ sessionStorage c.2 = sessionStorage w ∧
  requests (trace c.2) = requests (trace w) ∧
  last (trace c.2) = Some (Alert ("Failed to submit votes: " ++ finalize_message e)) ∧
  finalize_onerror ok (finalize_messages later c) = c.
Proof.
  intros Hty Ho c. subst c. unfold finalize_onmessage. rewrite Ho, Hty.
  cbn [String.eqb Ascii.eqb Bool.eqb andb fst snd finalize_readyState finalize_settled].
  split_and!; try done.
  - repeat (rewrite requests_emit; cbn [is_request]; rewrite app_nil_r). done.
  - cbn [trace emit]. apply last_snoc.
  - rewrite finalize_messages_closed by done. done.
Qed.

Lemma finalize_error_is_final_witness :
  let e := FinalizeEvent "error" None "" "model unavailable" in
  let c := finalize_connect (started_world ∅ "4f2a9c1e") in
  finalize_type e = "error" ∧
  finalize_onerror true
    (finalize_messages [FinalizeEvent "final_output" None "late" ""]
       (finalize_onmessage e c)) = finalize_onmessage e c.
Proof.
  intros e c. split; [reflexivity|].
  by destruct (finalize_error_is_final e c.1 c.2
                 [FinalizeEvent "final_output" None "late" ""] true eq_refl eq_refl)
    as (_ & _ & _ & _ & _ & _ & H).
Defined.

Lemma trace_submitFinalFeedback feedback ok w :
  posts (trace (submitFinalFeedback feedback ok w)) =
    (posts (trace w) ++
     [(feedback_url (app w) "final-feedback", [("feedback", VStr feedback)])])%list ∧
  element_ids (page (submitFinalFeedback feedback ok w)) = element_ids (page w).
Proof.
  unfold submitFinalFeedback, showFinalOutput. destruct ok.
  - rewrite trace_showView, posts_emit. split; [done|].
    by destruct (passive_showView "final"
      (emit (Fetch "POST" (feedback_url (app w) "final-feedback")
                   [("feedback", VStr feedback)]) w)) as (_ & _ & -> & _).
  - rewrite !posts_emit. cbn. by rewrite app_nil_r.
Qed.

(** X21.  The final-feedback button reports success either way.
    [submitFinalFeedback] swallows a failed call, so whether or not the
    server accepted the feedback, [submitFinalFeedbackUI] posts the
    trimmed text once, tells the user that the feedback was submitted,
    and disables and relabels the button. *)
Theorem final_feedback_always_reported (ok : bool) (w : world) :
  has_element "final-feedback-input" w = true →
  has_element "btn-submit-final-feedback" w = true →
  let w' := submitFinalFeedbackUI ok w in
  posts (trace w') =
    (posts (trace w) ++
     [ (feedback_url (app w) "final-feedback",
        [("feedback",
          VStr (trim (default "" (value (page w) !! "final-feedback-input"))))]) ])%list ∧
  last (trace w') = Some (Alert "Final feedback submitted! Council session complete.") ∧
  disabled (page w') !! "btn-submit-final-feedback" = Some true ∧
  value (page w') !! "btn-submit-final-feedback" = Some "Feedback Submitted".
Proof.
  intros Hi Hb. unfold submitFinalFeedbackUI. rewrite Hi. cbn zeta.
  set (fb := trim _).
  destruct (trace_submitFinalFeedback fb ok w) as [Hp He].
  assert (Hb' : has_element "btn-submit-final-feedback"
                  (emit (Alert "Final feedback submitted! Council session complete.")
                        (submitFinalFeedback fb ok w)) = true).
  { unfold has_element in *. cbn [page emit]. by rewrite He. }
  rewrite trace_write_value, trace_write_disabled. split_and!.
  - rewrite posts_emit, Hp. cbn. by rewrite app_nil_r.
  - cbn [trace emit]. apply last_snoc.
  - unfold write_value. rewrite has_element_write_disabled, Hb'.
    cbn [page with_page disabled]. by apply disabled_write_disabled_eq.
  - apply value_write_value_eq. by rewrite has_element_write_disabled.
Qed.

Lemma final_feedback_always_reported_witness :
  let w := World (set_sessionId (Some "4f2a9c1e") initial_state) ∅
                 initial_votingState initial_sessionVars
                 (Document {[ "final-feedback-input"; "btn-submit-final-feedback" ]}
                           {[ "final-feedback-input" := " thanks " ]} ∅) [] in
  has_element "final-feedback-input" w = true ∧
  posts (trace (submitFinalFeedbackUI false w)) =
    [("/api/session/4f2a9c1e/final-feedback", [("feedback", VStr "thanks")])].
Proof.
  intros w. split; [reflexivity|].
  destruct (final_feedback_always_reported false w eq_refl eq_refl) as (H & _).
  rewrite H. by vm_compute.
Defined.


End Finalize.

(** ** Checkpoints *)

Section Checkpoints.

Implicit Types (w : world) (e : event).







End Checkpoints.

(** ** Shortening text for the log *)

Section Truncate.

Lemma length_append (a b : string) :
  String.length (a ++ b) = (String.length a + String.length b)%nat.
Proof.
  induction a as [|c a IH]; [done|].
  change (S (String.length (a ++ b)) = S (String.length a + String.length b)).
  by rewrite IH.
Qed.

Lemma length_substring_0 (n : nat) (s : string) :
  (n ≤ String.length s)%nat → String.length (substring 0 n s) = n.
Proof.
  revert s. induction n as [|n IH]; intros s Hn; [by destruct s|].
  destruct s as [|c s]; cbn in *; [lia|]. rewrite IH; [done|lia].
Qed.

Lemma prefix_append (a b : string) : String.prefix a (a ++ b) = true.
Proof.
  induction a as [|c a IH]; [by destruct b|].
  change (String.prefix (String c a) (String c (a ++ b)) = true).
  cbn [String.prefix]. destruct (ascii_dec c c); [exact IH|done].
Qed.

(** X24.  [truncate] keeps short text and bounds long text.  Text of at most
    [maxLength] characters comes back unchanged; longer text comes back
    as its first [maxLength] characters followed by three dots, so the
    result never has more than [maxLength + 3] characters. *)
Theorem truncate_bounded (text : string) (maxLength : nat) :
  (String.length (truncate text maxLength) ≤ maxLength + 3)%nat ∧
  ((String.length text ≤ maxLength)%nat → truncate text maxLength = text) ∧
  ((maxLength < String.length text)%nat →
     String.length (truncate text maxLength) = (maxLength + 3)%nat ∧
     String.prefix (substring 0 maxLength text) (truncate text maxLength) = true).
Proof.
  unfold truncate.
  destruct (Nat.leb_spec (String.length text) maxLength) as [Hle|Hlt].
  - split_and!; [lia|done|lia].
  - rewrite length_append, length_substring_0 by lia. cbn [String.length].
    split_and!; [lia|lia|]. intros _. split; [done|apply prefix_append].
Qed.

Lemma truncate_bounded_witness :
  (3 < String.length "Rocq proves")%nat ∧ truncate "Rocq proves" 3 = "Roc...".
Proof.
  split; [cbn; lia|].
  destruct (truncate_bounded "Rocq proves" 3) as (_ & _ & H).
  destruct H as [Hl _]; [cbn; lia|]. reflexivity.
Defined.

End Truncate.
